(** * saas: lifecycle hooks of the data model and the JWT request gate

    A shallow embedding of the Go packages [models] (GORM hooks of [User],
    [Subscription] and [APIKey], the random-string generator), [auth]
    (token extraction, verification and the two role gates) and [main]
    (the default administrator), followed by the properties proved of them.

    Go values are modelled as follows: [string] is Rocq's byte string,
    [[]byte] is [list byte], [int]/[uint] are [Z], a nilable [error] is
    [option error], a pointer receiver that a method mutates is returned
    as the updated record.  Code that reads the random source or the clock,
    or that may panic, lives in the monad [Go.M]. *)

From Stdlib Require Import ZArith String Ascii Strings.Byte List Lia Bool.
From stdpp Require Import base gmap strings.
Import ListNotations.

Local Open Scope string_scope.
Local Open Scope Z_scope.

(* ===================================================================== *)
(** * Part I: the embedding                                               *)
(* ===================================================================== *)

(** ** The Go runtime as far as the program uses it *)

Module Go.

(** An [error] value is identified with its message. *)
Definition error := string.

(** [[]byte(s)] and [string(b)]. *)
Definition bytes_of (s : string) : list byte := list_byte_of_string s.
Definition string_of (b : list byte) : string := string_of_list_byte b.

(** [time.Time], seconds and nanoseconds since the zero instant
    (January 1, year 1, 00:00:00 UTC). *)
Record Time := mkTime { sec : Z; nsec : Z }.

Definition zeroTime : Time := mkTime 0 0.

(** [Time.IsZero]. *)
Definition IsZero (t : Time) : bool := (sec t =? 0) && (nsec t =? 0).

(** What one call of [crypto/rand.Read] does: it fills the whole buffer
    ([fill i] is the byte written at offset [i]) or it fails. *)
Inductive ReadEvent :=
| ReadOk (fill : nat -> byte)
| ReadErr (e : error).

(** The part of the environment the program observes: the system random
    source, scripted per call, the number of reads made so far, and the
    wall clock. *)
Record World := mkWorld {
  entropy : nat -> ReadEvent;
  reads : nat;
  wallclock : Time
}.

(** How a call ends: it returns, it panics, or the process exits
    ([log.Fatalf]). *)
Inductive Outcome (A : Type) :=
| Returned (a : A) (w : World)
| Panicked (v : error) (w : World)
| Exited (msg : string) (w : World).
Arguments Returned {A} a w.
Arguments Panicked {A} v w.
Arguments Exited {A} msg w.

Definition M (A : Type) : Type := World -> Outcome A.

Definition ret {A} (a : A) : M A := fun w => Returned a w.

Definition bind {A B} (c : M A) (k : A -> M B) : M B :=
  fun w =>
    match c w with
    | Returned a w' => k a w'
    | Panicked v w' => Panicked v w'
    | Exited msg w' => Exited msg w'
    end.

Definition panic {A} (v : error) : M A := fun w => Panicked v w.

(** [log.Fatalf]: the message is logged and the process exits. *)
Definition log_Fatalf {A} (msg : string) : M A := fun w => Exited msg w.

(** [time.Now()]. *)
Definition time_Now : M Time := fun w => Returned (wallclock w) w.

(** [make([]byte, n)]: [n] zero bytes; a negative length panics. *)
Definition make_bytes (n : Z) : M (list byte) :=
  if n <? 0 then panic "runtime error: makeslice: len out of range"
  else ret (repeat x00 (Z.to_nat n)).

(** The buffer after a successful read: every position overwritten, the
    length as it was (a callee cannot resize the caller's slice). *)
Fixpoint fill_from (fill : nat -> byte) (i : nat) (b : list byte) : list byte :=
  match b with
  | [] => []
  | _ :: b' => fill i :: fill_from fill (S i) b'
  end.

(** [crypto/rand.Read(b)]: the buffer afterwards, the count and the
    error.  Each call consumes one event of the random source. *)
Definition rand_Read (b : list byte) : M (list byte * Z * option error) :=
  fun w =>
    let w' := mkWorld (entropy w) (S (reads w)) (wallclock w) in
    match entropy w (reads w) with
    | ReadOk fill => Returned (fill_from fill 0 b, Z.of_nat (length b), None) w'
    | ReadErr e => Returned (b, 0, Some e) w'
    end.

(** [strings.Split(s, sep)] for a one-byte separator, the only kind the
    program passes: the pieces between the separators, so one piece more
    than there are separators (the empty string gives one empty piece). *)
Fixpoint strings_Split (s : string) (sep : ascii) : list string :=
  match s with
  | EmptyString => [EmptyString]
  | String c s' =>
      if Ascii.eqb c sep then EmptyString :: strings_Split s' sep
      else
        match strings_Split s' sep with
        | [] => [String c EmptyString]
        | p :: ps => String c p :: ps
        end
  end.

(** [strings.Join(parts, sep)]. *)
Fixpoint strings_Join (parts : list string) (sep : string) : string :=
  match parts with
  | [] => EmptyString
  | [p] => p
  | p :: ps => p ++ sep ++ strings_Join ps sep
  end.

End Go.
Export Go.

Declare Scope go_scope.
Delimit Scope go_scope with go.
Notation "'let*' x ':=' c 'in' k" := (Go.bind c (fun x => k))
  (at level 10, x pattern, c at level 100, k at level 200) : go_scope.

(** ** encoding/base64 *)

Module base64.

(** An [Encoding]: its 64-character alphabet and its padding character
    ([NoPadding] is [None]). *)
Record Encoding := mkEncoding { encode : string; padChar : option ascii }.

Definition encodeURL : string :=
  "ABCDEFGHIJKLMNOPQRSTUVWXYZabcdefghijklmnopqrstuvwxyz0123456789-_".

Definition StdPadding : ascii := "="%char.

(** [base64.URLEncoding]: the URL alphabet of RFC 4648, padded. *)
Definition URLEncoding : Encoding := mkEncoding encodeURL (Some StdPadding).

(** [base64.RawURLEncoding]: the same alphabet without padding. *)
Definition RawURLEncoding : Encoding := mkEncoding encodeURL None.

(** [enc.encode[v & 0x3F]]. *)
Definition sextet (enc : Encoding) (v : Z) : ascii :=
  match String.get (Z.to_nat (Z.land v 63)) (encode enc) with
  | Some c => c
  | None => StdPadding
  end.

Definition byteZ (b : byte) : Z := Z.of_N (Byte.to_N b).

Definition pad (enc : Encoding) (n : nat) : string :=
  match padChar enc with
  | Some c => string_of_list_ascii (repeat c n)
  | None => EmptyString
  end.

(** [enc.EncodeToString(src)]: each full group of three bytes gives four
    characters; a remainder of two bytes gives three characters and of
    one byte two characters, completed to four with the padding
    character when the encoding has one. *)
Fixpoint EncodeToString (enc : Encoding) (src : list byte) : string :=
  match src with
  | [] => EmptyString
  | [b0] =>
      let val := Z.shiftl (byteZ b0) 16 in
      String (sextet enc (Z.shiftr val 18))
        (String (sextet enc (Z.shiftr val 12)) (pad enc 2))
  | [b0; b1] =>
      let val := Z.lor (Z.shiftl (byteZ b0) 16) (Z.shiftl (byteZ b1) 8) in
      String (sextet enc (Z.shiftr val 18))
        (String (sextet enc (Z.shiftr val 12))
           (String (sextet enc (Z.shiftr val 6)) (pad enc 1)))
  | b0 :: b1 :: b2 :: rest =>
      let val := Z.lor (Z.lor (Z.shiftl (byteZ b0) 16) (Z.shiftl (byteZ b1) 8))
                   (byteZ b2) in
      String (sextet enc (Z.shiftr val 18))
        (String (sextet enc (Z.shiftr val 12))
           (String (sextet enc (Z.shiftr val 6))
              (String (sextet enc val) (EncodeToString enc rest))))
  end.

End base64.


(** ** golang.org/x/crypto/bcrypt *)

Module bcrypt.

Definition DefaultCost : Z := 10.

(** The library is an interface here: the two functions the program and
    its specification name.  [GenerateFromPassword] draws its salt from
    the random source, so it runs in the world; it returns the hash or an
    error and does not panic. *)
Class Lib := mkLib {
  GenerateFromPassword :
    list byte -> Z -> World -> (list byte * option error) * World;
  CompareHashAndPassword : list byte -> list byte -> option error
}.

(** The contract the library documents: a hash verifies against the
    password it was generated from; a hash is 60 bytes long; anything
    shorter than 59 bytes is rejected ([ErrHashTooShort]). *)
Class Lawful (bc : Lib) : Prop := mkLawful {
  compare_generated : forall password cost w hash w',
    GenerateFromPassword password cost w = ((hash, None), w') ->
    CompareHashAndPassword hash password = None;
  generated_length : forall password cost w hash w',
    GenerateFromPassword password cost w = ((hash, None), w') ->
    length hash = 60%nat;
  compare_too_short : forall hash password,
    (length hash < 59)%nat ->
    CompareHashAndPassword hash password <> None
}.

End bcrypt.

(** ** gorm.io/gorm: the session handle the hooks receive *)

Module gorm.

(** [tx.Statement]; [Changed field] is [tx.Statement.Changed(field)]. *)
Record Statement := mkStatement { Changed : string -> bool }.

(** [*gorm.DB]: the statement under way and the error of the last
    operation. *)
Record DB := mkDB { DB_Statement : Statement; DB_Error : option error }.

End gorm.

(** ** Package models *)

Module models.

(** [float64], as its IEEE 754 bit pattern; the program never computes
    with one. *)
Definition float64 := Z.

(** [gorm.DeletedAt] ([sql.NullTime]). *)
Record DeletedAt := mkDeletedAt { DeletedAt_Time : Time; DeletedAt_Valid : bool }.

(** [map[string]interface{}] values. *)
#[warnings="-register-all"]
Inductive JSONValue :=
| JNull
| JBool (b : bool)
| JNumber (f : float64)
| JString (s : string)
| JArray (l : list JSONValue)
| JObject (m : list (string * JSONValue)).

Definition JSONMap := list (string * JSONValue).

Record Base := mkBase {
  Base_ID : Z;
  Base_CreatedAt : Time;
  Base_UpdatedAt : Time;
  Base_DeletedAt : DeletedAt
}.

Record Permission := mkPermission {
  Permission_Base : Base;
  Permission_Name : string;
  Permission_Description : string
}.

Record Role := mkRole {
  Role_Base : Base;
  Role_Name : string;
  Role_Permissions : list Permission
}.

Definition SubscriptionStatus := string.
Definition SubscriptionStatusActive : SubscriptionStatus := "active".
Definition SubscriptionStatusInactive : SubscriptionStatus := "inactive".
Definition SubscriptionStatusTrialing : SubscriptionStatus := "trialing".
Definition SubscriptionStatusCanceled : SubscriptionStatus := "canceled".

Definition SeatStatus := string.
Definition UserRole : string := "user".
Definition AdminRole : string := "admin".
Definition SeatStatusActive : SeatStatus := "active".
Definition SeatStatusInactive : SeatStatus := "inactive".
Definition SeatStatusInvited : SeatStatus := "invited".

Record Feature := mkFeature {
  Feature_Base : Base;
  Feature_Name : string;
  Feature_Description : string
}.

Record SubscriptionPlan := mkSubscriptionPlan {
  SubscriptionPlan_Base : Base;
  SubscriptionPlan_Name : string;
  SubscriptionPlan_Description : string;
  SubscriptionPlan_Price : float64;
  SubscriptionPlan_Currency : string;
  SubscriptionPlan_Interval : string;
  SubscriptionPlan_Features : list Feature
}.

Record PaymentTransaction := mkPaymentTransaction {
  PaymentTransaction_Base : Base;
  PaymentTransaction_SubscriptionID : Z;
  PaymentTransaction_Amount : float64;
  PaymentTransaction_Currency : string;
  PaymentTransaction_Status : string;
  PaymentTransaction_Gateway : string;
  PaymentTransaction_GatewayID : string;
  PaymentTransaction_Timestamp : Time
}.

Record Subscription := mkSubscription {
  Subscription_Base : Base;
  Subscription_OrganizationID : Z;
  Subscription_SubscriptionPlan : SubscriptionPlan;
  Subscription_Status : SubscriptionStatus;
  Subscription_StartDate : Time;
  Subscription_EndDate : Time;
  Subscription_Transactions : list PaymentTransaction;
  Subscription_PaymentMethod : string;
  Subscription_LastPaymentDate : Time;
  Subscription_NextBillingDate : Time
}.

Record Seat := mkSeat {
  Seat_Base : Base;
  Seat_OrganizationID : Z;
  Seat_UserID : Z;
  Seat_Roles : list Role;
  Seat_Status : SeatStatus
}.

Record Domain := mkDomain {
  Domain_Base : Base;
  Domain_OrganizationID : Z;
  Domain_Domain : string;
  Domain_Verified : bool
}.

Record OrganizationSettings := mkOrganizationSettings {
  OrganizationSettings_LogoURL : string;
  OrganizationSettings_ThemeColor : string
}.

Record NotificationPreference := mkNotificationPreference {
  NotificationPreference_Base : Base;
  NotificationPreference_UserID : Z;
  NotificationPreference_EmailEnabled : bool;
  NotificationPreference_SMSEnabled : bool;
  NotificationPreference_InAppEnabled : bool;
  NotificationPreference_BillingEmails : bool;
  NotificationPreference_ProductEmails : bool;
  NotificationPreference_MarketingEmails : bool
}.

Record ActivityLog := mkActivityLog {
  ActivityLog_Base : Base;
  ActivityLog_UserID : Z;
  ActivityLog_OrganizationID : Z;
  ActivityLog_ActivityType : string;
  ActivityLog_Timestamp : Time;
  ActivityLog_Metadata : JSONMap
}.

Record APIKey := mkAPIKey {
  APIKey_Base : Base;
  APIKey_UserID : Z;
  APIKey_OrganizationID : Z;
  APIKey_Key : string;
  APIKey_Name : string;
  APIKey_Permissions : list string;
  APIKey_ExpiresAt : Time;
  APIKey_LastUsedAt : Time
}.

Record WorkflowStep := mkWorkflowStep {
  WorkflowStep_Name : string;
  WorkflowStep_Description : string;
  WorkflowStep_Order : Z;
  WorkflowStep_Approver : string;
  WorkflowStep_Conditions : string
}.

Record Workflow := mkWorkflow {
  Workflow_Base : Base;
  Workflow_Name : string;
  Workflow_Description : string;
  Workflow_Steps : list WorkflowStep;
  Workflow_OrganizationID : Z;
  Workflow_CreatorID : Z;
  Workflow_Enabled : bool
}.

(** [User], [Organization] and [AuditLog] refer to one another. *)
Inductive User : Type := mkUser {
  User_Base : Base;
  User_Email : string;
  User_Password : string;
  User_PasswordHash : string;
  User_Name : string;
  User_Roles : list Role;
  User_Organizations : list Organization;
  User_Seats : list Seat;
  User_Permissions : list Permission;
  User_VerificationCode : string;
  User_Verified : bool;
  User_ActivityLogs : list ActivityLog;
  User_NotificationPrefs : NotificationPreference;
  User_Locale : string;
  User_Timezone : string;
  User_Language : string
}
with Organization : Type := mkOrganization {
  Organization_Base : Base;
  Organization_Name : string;
  Organization_Users : list User;
  Organization_Subscriptions : list Subscription;
  Organization_SubscriptionPlan : SubscriptionPlan;
  Organization_Seats : list Seat;
  Organization_Domains : list Domain;
  Organization_Settings : OrganizationSettings;
  Organization_AuditLogs : list AuditLog;
  Organization_ActivityLogs : list ActivityLog;
  Organization_APIKeys : list APIKey;
  Organization_Workflows : list Workflow
}
with AuditLog : Type := mkAuditLog {
  AuditLog_Base : Base;
  AuditLog_UserID : Z;
  AuditLog_Action : string;
  AuditLog_ResourceType : string;
  AuditLog_ResourceID : Z;
  AuditLog_Timestamp : Time;
  AuditLog_Changes : JSONMap;
  AuditLog_Organization : Organization
}.

Record Report := mkReport {
  Report_Base : Base;
  Report_Name : string;
  Report_Description : string;
  Report_Query : string;
  Report_OrganizationID : Z;
  Report_CreatorID : Z;
  Report_Schedule : string;
  Report_Recipients : list string;
  Report_LastRunAt : Time
}.

(** Field assignments ([u.Password = v] and the like). *)
Definition set_User_Base (v : Base) (u : User) : User :=
  match u with
  | mkUser _ f1 f2 f3 f4 f5 f6 f7 f8 f9 f10 f11 f12 f13 f14 f15 =>
      mkUser v f1 f2 f3 f4 f5 f6 f7 f8 f9 f10 f11 f12 f13 f14 f15
  end.

Definition set_User_Password (v : string) (u : User) : User :=
  match u with
  | mkUser f0 f1 _ f3 f4 f5 f6 f7 f8 f9 f10 f11 f12 f13 f14 f15 =>
      mkUser f0 f1 v f3 f4 f5 f6 f7 f8 f9 f10 f11 f12 f13 f14 f15
  end.

Definition set_User_PasswordHash (v : string) (u : User) : User :=
  match u with
  | mkUser f0 f1 f2 _ f4 f5 f6 f7 f8 f9 f10 f11 f12 f13 f14 f15 =>
      mkUser f0 f1 f2 v f4 f5 f6 f7 f8 f9 f10 f11 f12 f13 f14 f15
  end.

Definition set_User_VerificationCode (v : string) (u : User) : User :=
  match u with
  | mkUser f0 f1 f2 f3 f4 f5 f6 f7 f8 _ f10 f11 f12 f13 f14 f15 =>
      mkUser f0 f1 f2 f3 f4 f5 f6 f7 f8 v f10 f11 f12 f13 f14 f15
  end.

Definition set_Subscription_Status (v : SubscriptionStatus) (s : Subscription)
  : Subscription :=
  match s with
  | mkSubscription f0 f1 f2 _ f4 f5 f6 f7 f8 f9 =>
      mkSubscription f0 f1 f2 v f4 f5 f6 f7 f8 f9
  end.

Definition set_Subscription_StartDate (v : Time) (s : Subscription)
  : Subscription :=
  match s with
  | mkSubscription f0 f1 f2 f3 _ f5 f6 f7 f8 f9 =>
      mkSubscription f0 f1 f2 f3 v f5 f6 f7 f8 f9
  end.

Definition set_APIKey_Key (v : string) (k : APIKey) : APIKey :=
  match k with
  | mkAPIKey f0 f1 f2 _ f4 f5 f6 f7 => mkAPIKey f0 f1 f2 v f4 f5 f6 f7
  end.

Local Open Scope go_scope.

(** [generateRandomString]: a buffer of [length] bytes is filled from the
    system random source and encoded with [base64.URLEncoding]; an error
    of the source is a panic. *)
Definition generateRandomString (length : Z) : M string :=
  let* bytes := make_bytes length in
  let* (bytes, _, err) := rand_Read bytes in
  match err with
  | Some e => panic e
  | None => ret (base64.EncodeToString base64.URLEncoding bytes)
  end.

Section Hooks.

Context {bc : bcrypt.Lib}.

(** The call [bcrypt.GenerateFromPassword(password, cost)]. *)
Definition bcrypt_GenerateFromPassword (password : list byte) (cost : Z)
  : M (list byte * option error) :=
  fun w =>
    let '(r, w') := bcrypt.GenerateFromPassword password cost w in
    Returned r w'.

(** [User.hashPassword]. *)
Definition hashPassword (u : User) : M (User * option error) :=
  if negb (String.eqb (User_Password u) "") then
    let* (hashedPassword, err) :=
      bcrypt_GenerateFromPassword (bytes_of (User_Password u)) bcrypt.DefaultCost in
    match err with
    | Some e => ret (u, Some e)
    | None =>
        let u := set_User_PasswordHash (string_of hashedPassword) u in
        let u := set_User_Password "" u in
        ret (u, None)
    end
  else ret (u, None).

(** [User.BeforeCreate]. *)
Definition User_BeforeCreate (u : User) (tx : gorm.DB) : M (User * option error) :=
  let* (u, err) := hashPassword u in
  match err with
  | Some e => ret (u, Some e)
  | None =>
      let* code := generateRandomString 32 in
      let u := set_User_VerificationCode code u in
      ret (u, None)
  end.

(** [User.BeforeUpdate]. *)
Definition User_BeforeUpdate (u : User) (tx : gorm.DB) : M (User * option error) :=
  if gorm.Changed (gorm.DB_Statement tx) "Password" then
    let* (u, err) := hashPassword u in
    match err with
    | Some e => ret (u, Some e)
    | None => ret (u, None)
    end
  else ret (u, None).

End Hooks.

(** [Subscription.BeforeCreate]. *)
Definition Subscription_BeforeCreate (s : Subscription) (tx : gorm.DB)
  : M (Subscription * option error) :=
  let s :=
    if String.eqb (Subscription_Status s) "" then
      set_Subscription_Status SubscriptionStatusTrialing s
    else s in
  if IsZero (Subscription_StartDate s) then
    let* now := time_Now in
    ret (set_Subscription_StartDate now s, None)
  else ret (s, None).

(** [APIKey.BeforeCreate]. *)
Definition APIKey_BeforeCreate (k : APIKey) (tx : gorm.DB)
  : M (APIKey * option error) :=
  let* key := generateRandomString 32 in
  ret (set_APIKey_Key key k, None).

End models.

(** ** The users table behind the session handle

    gorm builds a statement for the model before it runs any callback; to
    do so it parses the schema of the model's struct.  When that fails
    (a relation without a usable foreign key, for one), the error is put
    on the handle and every callback, hooks included, is skipped.  Whether
    it fails for [models.User] is for gorm to say, so it is a parameter
    here ([Session]); the operations below take both answers into
    account. *)

Module store.
Import models.
Local Open Scope go_scope.

(** The rows of the [users] table, oldest first. *)
Definition Table := list User.

(** What gorm answers when it builds a statement for [models.User]:
    [None] when the schema parses, the error otherwise. *)
Class Session := mkSession { Parse_User : option error }.

(** The rows a count by email sees: those with that email that are not
    soft-deleted. *)
Definition matching (t : Table) (email : string) : Z :=
  Z.of_nat (length (List.filter
    (fun u => String.eqb (User_Email u) email
              && negb (DeletedAt_Valid (Base_DeletedAt (User_Base u)))) t)).

(** [db.Model(&models.User{}).Where("email = ?", email).Count(&count)]
    with [count] zero before the call: the value of [count] afterwards
    and the error of the query.  When the statement cannot be built the
    query is not run and [count] stays zero. *)
Definition CountByEmail {ss : Session} (t : Table) (email : string)
  : Z * option error :=
  match Parse_User with
  | Some e => (0, Some e)
  | None => (matching t email, None)
  end.

(** The identity the table gives the next row. *)
Definition nextID (t : Table) : Z :=
  1 + fold_right (fun u m => Z.max (Base_ID (User_Base u)) m) 0 t.

(** The row as inserted: the record after its hook, with the identity and
    the timestamps filled in where the caller left them zero. *)
Definition stamp (t : Table) (now : Time) (u : User) : User :=
  let b := User_Base u in
  set_User_Base
    (mkBase (if Base_ID b =? 0 then nextID t else Base_ID b)
            (if IsZero (Base_CreatedAt b) then now else Base_CreatedAt b)
            (if IsZero (Base_UpdatedAt b) then now else Base_UpdatedAt b)
            (Base_DeletedAt b)) u.

(** The create callbacks, which [db.Create(u)] runs once the statement
    is built: the [BeforeCreate] hook first; an error from it is recorded
    on the handle and nothing is inserted.  Otherwise the row is
    inserted, unless its email is taken (the column is unique).  The
    result is the table, the record as the caller sees it afterwards, and
    the handle. *)
Definition Create_callbacks {bc : bcrypt.Lib} (t : Table) (db : gorm.DB) (u : User)
  : M (Table * User * gorm.DB) :=
  let* (u, err) := User_BeforeCreate u db in
  match err with
  | Some e => ret (t, u, gorm.mkDB (gorm.DB_Statement db) (Some e))
  | None =>
      if existsb (fun r => String.eqb (User_Email r) (User_Email u)) t then
        ret (t, u, gorm.mkDB (gorm.DB_Statement db)
                     (Some "duplicate key value violates unique constraint"))
      else
        let* now := time_Now in
        let row := stamp t now u in
        ret ((t ++ [row])%list, row, gorm.mkDB (gorm.DB_Statement db) None)
  end.

(** [db.Create(u)]: when the statement cannot be built, the error is
    recorded on the handle and no callback runs: the hook is not called,
    nothing is inserted, the record is as it was.  Otherwise the create
    callbacks run. *)
Definition Create {bc : bcrypt.Lib} {ss : Session}
    (t : Table) (db : gorm.DB) (u : User) : M (Table * User * gorm.DB) :=
  match Parse_User with
  | Some e => ret (t, u, gorm.mkDB (gorm.DB_Statement db) (Some e))
  | None => Create_callbacks t db u
  end.

End store.

(** ** Package main *)

Module main.
Import models.
Local Open Scope go_scope.

Definition zeroBase : Base :=
  mkBase 0 zeroTime zeroTime (mkDeletedAt zeroTime false).

Definition zeroNotificationPreference : NotificationPreference :=
  mkNotificationPreference zeroBase 0 false false false false false false.

(** The composite literal in [createDefaultAdmin]; the fields it does not
    name have their zero values. *)
Definition admin : User :=
  mkUser zeroBase
    "admin"                                (* Email *)
    ""                                     (* Password *)
    "password"                             (* PasswordHash *)
    "Admin User"                           (* Name *)
    [mkRole zeroBase "admin" []]           (* Roles *)
    [] [] []
    ""                                     (* VerificationCode *)
    true                                   (* Verified *)
    []
    zeroNotificationPreference
    "" "" "".

(** [createDefaultAdmin].  The error of the count is not looked at. *)
Definition createDefaultAdmin {bc : bcrypt.Lib} {ss : store.Session}
    (t : store.Table) (db : gorm.DB) : M store.Table :=
  let '(count, _) := store.CountByEmail t "admin" in
  if count =? 0 then
    let* (t', _, db') := store.Create t db admin in
    match gorm.DB_Error db' with
    | Some err => log_Fatalf ("Failed to create admin user: " ++ err)
    | None => ret t'
    end
  else ret t.

End main.

(** ** github.com/golang-jwt/jwt *)

Module jwt.

(** The registered families of signing methods. *)
Inductive SigningMethod :=
| SigningMethodHMAC (alg : string)
| SigningMethodRSA (alg : string)
| SigningMethodRSAPSS (alg : string)
| SigningMethodECDSA (alg : string)
| SigningMethodNone.

(** A value held in an [interface{}] of a decoded claim set. *)
Inductive Value :=
| VNil
| VBool (b : bool)
| VFloat64 (bits : Z)
| VString (s : string)
| VOther.

(** The [Claims] interface: [MapClaims] or some other implementation. *)
Inductive Claims :=
| MapClaims (m : gmap string Value)
| OtherClaims.

Record Token := mkToken {
  Raw : string;
  Method : SigningMethod;
  Claims_ : Claims;
  Signature : string;
  Valid : bool
}.

(** [Keyfunc]: the key to verify with, or an error. *)
Definition Keyfunc := Token -> list byte * option error.

(** What [jwt.Parse] gives back: with a nil error the token, with an error
    the token as far as it was parsed. *)
Inductive ParseResult :=
| Parsed (token : Token)
| ParseError (token : option Token) (err : error).

(** The parts of the library that are cryptography and JSON, as an
    interface: decoding of the three segments into a token (header and
    claims, and the signing method the header names), the validity of the
    claims at the time of the call (expiry and the like) and the
    verification of a signature by a signing method. *)
Class Lib := mkLib {
  decodeSegments : list string -> Token + error;
  claimsValid : Claims -> option error;
  Verify : SigningMethod -> string -> string -> list byte -> option error
}.

(** [jwt.Parse(tokenString, keyFunc)]: three segments separated by dots
    are required; the token is decoded, the key looked up with [keyFunc],
    the claims validated and the signature over the first two segments
    verified; only then is the token [Valid]. *)
Definition Parse {L : Lib} (tokenString : string) (keyFunc : Keyfunc)
  : ParseResult :=
  let parts := strings_Split tokenString "."%char in
  if negb (Nat.eqb (length parts) 3) then
    ParseError None "token contains an invalid number of segments"
  else
    match decodeSegments parts with
    | inr e => ParseError None e
    | inl token =>
        let '(key, err) := keyFunc token in
        match err with
        | Some e => ParseError (Some token) e
        | None =>
            let vErr := claimsValid (Claims_ token) in
            let token := mkToken (Raw token) (Method token) (Claims_ token)
                           (nth 2 parts "") (Valid token) in
            let sErr := Verify (Method token)
                          (strings_Join (firstn 2 parts) ".")
                          (Signature token) key in
            match vErr, sErr with
            | None, None =>
                Parsed (mkToken (Raw token) (Method token) (Claims_ token)
                          (Signature token) true)
            | Some e, _ => ParseError (Some token) e
            | None, Some e => ParseError (Some token) e
            end
        end
    end.

End jwt.

(** ** github.com/gin-gonic/gin *)

Module gin.

(** [gin.H], the body of a JSON response. *)
Definition H := list (string * string).

(** [gin.Context]: the request headers, the position in the handler
    chain, and the responses written so far (status and body). *)
Record Context := mkContext {
  Request_Header : gmap string (list string);
  index : Z;
  Writer : list (Z * H)
}.

Definition StatusUnauthorized : Z := 401.

Definition abortIndex : Z := 63.

(** [c.GetHeader(key)]: the first value of the header, or the empty
    string. *)
Definition GetHeader (c : Context) (key : string) : string :=
  match Request_Header c !! key with
  | Some (v :: _) => v
  | _ => ""
  end.

(** [c.JSON(code, obj)]. *)
Definition JSON (code : Z) (obj : H) (c : Context) : Context :=
  mkContext (Request_Header c) (index c) ((Writer c ++ [(code, obj)])%list).

(** [c.Abort()]: the pending handlers are not called. *)
Definition Abort (c : Context) : Context :=
  mkContext (Request_Header c) abortIndex (Writer c).

Definition IsAborted (c : Context) : bool := abortIndex <=? index c.

(** A handler; its first argument is what [c.Next()] does where the
    handler stands in the chain. *)
Definition HandlerFunc := (Context -> Context) -> Context -> Context.

(** [c.Next()] with [pending] the handlers after the current one: the
    index steps forward and each pending handler runs in turn, for as
    long as the index stays below the end of the chain.  A handler that
    itself called [Next] or [Abort] has moved the index past the handlers
    after it, so they do not run again. *)
Fixpoint Next (pending : list HandlerFunc) (c : Context) : Context :=
  let c := mkContext (Request_Header c) (index c + 1) (Writer c) in
  match pending with
  | [] => c
  | h :: rest =>
      let c' := h (Next rest) c in
      if index c' =? index c then Next rest c'
      else mkContext (Request_Header c') (index c' + 1) (Writer c')
  end.

(** The engine serving a request: the chain starts from index -1. *)
Definition handleHTTPRequest (handlers : list HandlerFunc) (c : Context)
  : Context :=
  Next handlers (mkContext (Request_Header c) (-1) (Writer c)).

End gin.

(** ** Package auth *)

Module auth.

Section Gate.

Context {L : jwt.Lib}.

Definition jwtKey : list byte := bytes_of "your-secret-key".

(** The key function [VerifyToken] hands to [jwt.Parse]. *)
Definition keyFunc : jwt.Keyfunc :=
  fun token =>
    match jwt.Method token with
    | jwt.SigningMethodHMAC _ => (jwtKey, None)
    | _ => ([], Some "invalid signing method")
    end.

(** [ExtractToken]. *)
Definition ExtractToken (c : gin.Context) : string :=
  let bearerToken := gin.GetHeader c "Authorization" in
  if Nat.eqb (length (strings_Split bearerToken " "%char)) 2 then
    nth 1 (strings_Split bearerToken " "%char) ""
  else "".

(** [VerifyToken]. *)
Definition VerifyToken (c : gin.Context) : string * option error :=
  let tokenString := ExtractToken c in
  match jwt.Parse tokenString keyFunc with
  | jwt.ParseError _ err => ("", Some err)
  | jwt.Parsed token =>
      match jwt.Claims_ token with
      | jwt.MapClaims claims =>
          if negb (jwt.Valid token) then ("", Some "invalid token")
          else
            match claims !! "role" with
            | Some (jwt.VString role) => (role, None)
            | _ => ("", Some "invalid role")
            end
      | jwt.OtherClaims => ("", Some "invalid token")
      end
  end.

Definition unauthorized : gin.H := [("error", "Unauthorized")].

(** [IsUserOrAdmin]. *)
Definition IsUserOrAdmin : gin.HandlerFunc :=
  fun c_Next c =>
    let '(role, err) := VerifyToken c in
    if bool_decide (err <> None)
       || (negb (String.eqb role models.UserRole)
           && negb (String.eqb role models.AdminRole)) then
      gin.Abort (gin.JSON gin.StatusUnauthorized unauthorized c)
    else c_Next c.

(** [AuthMiddleware]. *)
Definition AuthMiddleware (requiredRole : string) : gin.HandlerFunc :=
  fun c_Next c =>
    let '(role, err) := VerifyToken c in
    if bool_decide (err <> None) || negb (String.eqb role requiredRole) then
      gin.Abort (gin.JSON gin.StatusUnauthorized unauthorized c)
    else c_Next c.

End Gate.

End auth.

(** ** Package auth: issuing tokens *)

Module issue.

(** A value put into a claim set before signing. *)
Inductive ClaimValue :=
| CUint (n : Z)
| CString (s : string).

(** [jwt.NewWithClaims(method, claims)] followed by
    [token.SignedString(key)], as an interface: the token string, or an
    error. *)
Class Signer := mkSigner {
  SignedString :
    jwt.SigningMethod -> gmap string ClaimValue -> list byte
    -> string * option error
}.

Definition SigningMethodHS256 : jwt.SigningMethod :=
  jwt.SigningMethodHMAC "HS256".

Section Issue.

Context {S : Signer}.

(** [GenerateToken]. *)
Definition GenerateToken (user : models.User) : string * option error :=
  SignedString SigningMethodHS256
    {[ "id" := CUint (models.Base_ID (models.User_Base user));
       "role" := CString "user" ]}
    auth.jwtKey.

(** [GenerateAdminToken]. *)
Definition GenerateAdminToken (user : models.User) : string * option error :=
  SignedString SigningMethodHS256
    {[ "id" := CUint (models.Base_ID (models.User_Base user));
       "role" := CString "admin" ]}
    auth.jwtKey.

End Issue.

End issue.

(* ===================================================================== *)
(** * Part II: notions used in the statements, and concrete inputs        *)
(* ===================================================================== *)

(** ** Stand-ins for the two libraries

    The properties below hold for every implementation of the [bcrypt]
    and [jwt] interfaces.  To evaluate the program on concrete inputs the
    interfaces are instantiated with small stand-ins of the same shape as
    the libraries (a salted digest in a 60-byte hash; three-segment tokens
    with a keyed signature).  They are not the real algorithms. *)

Module demo.

Definition letter (z : Z) : byte :=
  match Byte.of_N (Z.to_N (97 + z mod 26)) with
  | Some b => b
  | None => x61
  end.

Definition mix (key data : list byte) : Z :=
  fold_left (fun acc b => (acc * 131 + base64.byteZ b + 7) mod 1000003)
    (key ++ data)%list 17.

(** [n] letters derived from the key and the data. *)
Definition digest (n : nat) (key data : list byte) : list byte :=
  map (fun i => letter (mix key data / (Z.of_nat i + 1) + Z.of_nat i)) (seq 0 n).

Definition prefix : list byte := bytes_of "$2a$10$".

Definition GenerateFromPassword (password : list byte) (cost : Z) (w : World)
  : (list byte * option error) * World :=
  if (72 <? length password)%nat then
    (([], Some "bcrypt: password length exceeds 72 bytes"), w)
  else
    match rand_Read (repeat x00 22) w with
    | Returned (salt, _, None) w' =>
        (((prefix ++ salt ++ digest 31 salt password)%list, None), w')
    | Returned (_, _, Some e) w' => (([], Some e), w')
    | Panicked e w' => (([], Some e), w')
    | Exited e w' => (([], Some e), w')
    end.

Definition CompareHashAndPassword (hash password : list byte) : option error :=
  if (length hash <? 59)%nat then
    Some "crypto/bcrypt: hashedSecret too short to be a bcrypted password"
  else
    let salt := firstn 22 (skipn 7 hash) in
    if String.eqb (string_of hash)
         (string_of (prefix ++ salt ++ digest 31 salt password)%list)
    then None
    else Some "crypto/bcrypt: hashedPassword is not the hash of the given password".

#[export] Instance bcryptLib : bcrypt.Lib :=
  bcrypt.mkLib GenerateFromPassword CompareHashAndPassword.

(** The keyed signature of the stand-in tokens. *)
Definition mac (key : list byte) (signingString : string) : string :=
  string_of (digest 8 key (bytes_of signingString)).

(** Tokens [alg.role.signature]: the first segment names the method, the
    second is the role claim. *)
Definition decodeSegments (parts : list string) : jwt.Token + error :=
  match parts with
  | [h; p; _] =>
      let token m :=
        jwt.mkToken (strings_Join parts ".") m
          (jwt.MapClaims {[ "role" := jwt.VString p ]}) "" false in
      if String.eqb h "HS256" then inl (token (jwt.SigningMethodHMAC "HS256"))
      else if String.eqb h "RS256" then inl (token (jwt.SigningMethodRSA "RS256"))
      else inr "signing method (alg) is unavailable."
  | _ => inr "token contains an invalid number of segments"
  end.

Definition Verify (m : jwt.SigningMethod) (signingString signature : string)
  (key : list byte) : option error :=
  match m with
  | jwt.SigningMethodHMAC _ =>
      if String.eqb signature (mac key signingString) then None
      else Some "signature is invalid"
  | _ => Some "key is of invalid type"
  end.

#[export] Instance jwtLib : jwt.Lib :=
  jwt.mkLib decodeSegments (fun _ => None) Verify.

(** A world whose random source never fails and yields the bytes
    [0, 1, 2, ...] on every read. *)
Definition counting (i : nat) : byte :=
  match Byte.of_N (N.of_nat i mod 256) with
  | Some b => b
  | None => x00
  end.

Definition steady : World :=
  mkWorld (fun _ => ReadOk counting) 0 (mkTime 63800000000 0).

(** A world whose random source is broken. *)
Definition broken : World :=
  mkWorld (fun _ => ReadErr "read /dev/urandom: input/output error") 0
    (mkTime 63800000000 0).

Definition tx : gorm.DB := gorm.mkDB (gorm.mkStatement (fun _ => false)) None.

(** A session in which gorm parses the schema of [models.User], and one
    in which it does not. *)
Definition parsed : store.Session := store.mkSession None.

Definition unparsed : store.Session :=
  store.mkSession
    (Some "invalid field found for struct: define a valid foreign key for relations or implement the Valuer/Scanner interface").

End demo.

(** ** The random source and the alphabet *)

(** The world after one read of the random source. *)
Definition tick (w : World) : World :=
  mkWorld (entropy w) (S (reads w)) (wallclock w).

(** The 32 bytes a read delivers into a fresh buffer. *)
Definition drawn (fill : nat -> byte) : list byte :=
  fill_from fill 0 (repeat x00 32).

(** Membership in the URL alphabet. *)
Definition isURLChar (c : ascii) : bool :=
  existsb (Ascii.eqb c) (list_ascii_of_string base64.encodeURL).

(** ** Requests and gates *)

(** A request with the given [Authorization] header, before any handler
    has run. *)
Definition request (authorization : string) : gin.Context :=
  gin.mkContext {[ "Authorization" := [authorization] ]} (-1) [].

(** A request without that header. *)
Definition bare_request : gin.Context := gin.mkContext ∅ (-1) [].

(** What a gate leaves behind when it rejects: the unauthorized response
    written and the chain aborted. *)
Definition rejected (c : gin.Context) : gin.Context :=
  gin.Abort (gin.JSON gin.StatusUnauthorized auth.unauthorized c).

(** The guarded operation of the concrete instances: it answers 200. *)
Definition guarded_ok : gin.HandlerFunc :=
  fun _ c => gin.JSON 200 [("status", "ok")] c.

(** The responses a fresh request gets from the chain [gate; guarded_ok]. *)
Definition served (gate : gin.HandlerFunc) (c : gin.Context) : list (Z * gin.H) :=
  gin.Writer
    (gin.handleHTTPRequest [gate; guarded_ok]
       (gin.mkContext (gin.Request_Header c) (-1) [])).

Definition no_space (s : string) : Prop :=
  forallb (fun ch => negb (Ascii.eqb ch " ")) (list_ascii_of_string s) = true.

Section Admission.

Context {L : jwt.Lib}.

(** The role-exact gate admits the request. *)
Definition admits_exact (requiredRole : string) (c : gin.Context) : Prop :=
  exists role, auth.VerifyToken c = (role, None) /\ role = requiredRole.

(** The user-or-admin gate admits the request. *)
Definition admits_user_or_admin (c : gin.Context) : Prop :=
  exists role, auth.VerifyToken c = (role, None)
               /\ (role = "user" \/ role = "admin").

(** A token signed with the server's key by an HMAC method, with valid
    claims and the given role claim. *)
Definition correctly_signed (tokenString role : string) : Prop :=
  let parts := strings_Split tokenString "."%char in
  length parts = 3%nat
  /\ exists token claims alg,
       jwt.decodeSegments parts = inl token
       /\ jwt.Method token = jwt.SigningMethodHMAC alg
       /\ jwt.Claims_ token = jwt.MapClaims claims
       /\ claims !! "role" = Some (jwt.VString role)
       /\ jwt.claimsValid (jwt.Claims_ token) = None
       /\ jwt.Verify (jwt.Method token) (strings_Join (firstn 2 parts) ".")
            (nth 2 parts "") auth.jwtKey = None.

End Admission.

(** ** Concrete users and tokens *)

Section Inputs.

Import models.

(** A user with a plaintext password, for the concrete instances. *)
Definition alice : User :=
  mkUser main.zeroBase "alice@example.com" "hunter2" "" "Alice" [] [] [] []
    "" false [] main.zeroNotificationPreference "en" "UTC" "en".

(** A user with neither a password nor a hash. *)
Definition nobody : User :=
  mkUser main.zeroBase "nobody@example.com" "" "" "Nobody" [] [] [] []
    "stale" false [] main.zeroNotificationPreference "" "" "".

(** The salt the stand-in hash draws in the world [demo.steady]. *)
Definition drawn_salt : list byte :=
  fill_from demo.counting 0 (repeat x00 22).

(** Stand-in tokens for the two roles, signed with the server's key. *)
Definition admin_token : string :=
  "HS256.admin." ++ demo.mac auth.jwtKey "HS256.admin".

Definition user_token : string :=
  "HS256.user." ++ demo.mac auth.jwtKey "HS256.user".

(** A subscription and an API key with every field at its zero value
    but the ones named. *)
Definition zeroPlan : SubscriptionPlan :=
  mkSubscriptionPlan main.zeroBase "" "" 0 "" "" [].

Definition blank_subscription : Subscription :=
  mkSubscription main.zeroBase 7 zeroPlan "" zeroTime zeroTime [] "card"
    zeroTime zeroTime.

Definition ci_key : APIKey :=
  mkAPIKey main.zeroBase 1 7 "chosen-by-caller" "ci" ["read"]
    (mkTime 64000000000 0) (mkTime 63700000000 5).

(** A handle on which every field counts as changed. *)
Definition tx_changed : gorm.DB :=
  gorm.mkDB (gorm.mkStatement (fun _ => true)) None.

(** [alice] as the creation hook leaves her in the world [demo.steady]. *)
Definition alice_created : User :=
  set_User_VerificationCode "AAECAwQFBgcICQoLDA0ODxAREhMUFRYXGBkaGxwdHh8="
    (set_User_Password ""
       (set_User_PasswordHash
          (string_of (demo.prefix ++ drawn_salt
                        ++ demo.digest 31 drawn_salt (bytes_of "hunter2"))%list)
          alice)).

(** The specification's wording of the verification code: 43 characters. *)
Definition code_has_43_characters : Prop :=
  forall (bc : bcrypt.Lib) (u : User) (tx : gorm.DB) (w : World)
         (u' : User) (w' : World),
    User_BeforeCreate u tx w = Returned (u', None) w' ->
    String.length (User_VerificationCode u') = 43%nat.

End Inputs.

(** ** Further notions: headers, chains, tokens *)

(** How often a character occurs in a string. *)
Fixpoint count_char (ch : ascii) (s : string) : nat :=
  match s with
  | EmptyString => 0
  | String c s' => (if Ascii.eqb c ch then 1 else 0) + count_char ch s'
  end.

Definition no_char (ch : ascii) (s : string) : Prop :=
  forallb (fun c => negb (Ascii.eqb c ch)) (list_ascii_of_string s) = true.

(** The position of a character in an alphabet (its length if absent). *)
Fixpoint index_of (ch : ascii) (alphabet : string) : nat :=
  match alphabet with
  | EmptyString => 0
  | String c rest => if Ascii.eqb ch c then 0 else S (index_of ch rest)
  end.

(** The characters an encoded string is made of: the URL alphabet and the
    padding. *)
Definition isCodeChar (c : ascii) : bool :=
  isURLChar c || Ascii.eqb c base64.StdPadding.

(** A world whose random source never fails and yields different bytes
    on every read. *)
Definition varying : World :=
  mkWorld (fun i => ReadOk (fun j => demo.counting (i + j))) 0
    (mkTime 63800000000 0).

(** The stand-in signer that goes with [demo.jwtLib]: the role claim
    becomes the second segment. *)
Definition demo_signer : issue.Signer :=
  issue.mkSigner
    (fun m claims key =>
       match m, claims !! "role" with
       | jwt.SigningMethodHMAC _, Some (issue.CString role) =>
           ("HS256." ++ role ++ "." ++ demo.mac key ("HS256." ++ role), None)
       | _, _ => ("", Some "key is of invalid type")
       end).

(** Signing and parsing fit together for the claim set of a user with
    the given identity and role: what the signer returns without error
    has no space in it and is a correctly signed token with that role. *)
Definition signing_fits (S : issue.Signer) (L : jwt.Lib) (id : Z) (role : string)
  : Prop :=
  forall t,
    issue.SignedString issue.SigningMethodHS256
      {[ "id" := issue.CUint id; "role" := issue.CString role ]} auth.jwtKey
    = (t, None) ->
    no_space t /\ correctly_signed t role.

(** A final handler that answers with the given status and body. *)
Definition respond (code : Z) (body : gin.H) : gin.HandlerFunc :=
  fun _ c => gin.JSON code body c.

(** A stand-in library in the manner of the [none] algorithm: every
    three-segment token decodes to an unsigned token with role ["admin"],
    and every signature is accepted. *)
Definition unsigned_lib : jwt.Lib :=
  jwt.mkLib
    (fun parts =>
       inl (jwt.mkToken (strings_Join parts ".") jwt.SigningMethodNone
              (jwt.MapClaims {[ "role" := jwt.VString "admin" ]}) "" false))
    (fun _ => None)
    (fun _ _ _ _ => None).

(** A stand-in library whose tokens carry a number as their role claim
    and pass every check. *)
Definition numeric_role_lib : jwt.Lib :=
  jwt.mkLib
    (fun parts =>
       inl (jwt.mkToken (strings_Join parts ".") (jwt.SigningMethodHMAC "HS256")
              (jwt.MapClaims {[ "role" := jwt.VFloat64 1 ]}) "" false))
    (fun _ => None)
    (fun _ _ _ _ => None).

(* ===================================================================== *)
(** * Part III: properties                                                *)
(* ===================================================================== *)

(** ** Strings and the random source *)

Section RuntimeFacts.

Lemma fill_from_length (fill : nat -> byte) (b : list byte) (i : nat) :
  length (fill_from fill i b) = length b.
Proof.
  revert i; induction b as [|x b IH]; intros i; simpl; [reflexivity|].
  now rewrite IH.
Qed.

Lemma strings_Split_nonempty (s : string) (sep : ascii) :
  strings_Split s sep <> [].
Proof.
  destruct s as [|c s]; simpl; [discriminate|].
  destruct (Ascii.eqb c sep); [discriminate|].
  destruct (strings_Split s sep); discriminate.
Qed.

(** A string without the separator is a single piece. *)
Lemma strings_Split_none (s : string) (sep : ascii) :
  forallb (fun c => negb (Ascii.eqb c sep)) (list_ascii_of_string s) = true ->
  strings_Split s sep = [s].
Proof.
  induction s as [|c s IH]; simpl; [reflexivity|].
  intros H. apply andb_true_iff in H as [Hc Hs].
  apply negb_true_iff in Hc. rewrite Hc, (IH Hs). reflexivity.
Qed.

(** Splitting at the first separator. *)
Lemma strings_Split_app (p q : string) (sep : ascii) :
  forallb (fun c => negb (Ascii.eqb c sep)) (list_ascii_of_string p) = true ->
  strings_Split (p ++ String sep q) sep = p :: strings_Split q sep.
Proof.
  induction p as [|c p IH]; simpl.
  - intros _. now rewrite Ascii.eqb_refl.
  - intros H. apply andb_true_iff in H as [Hc Hp].
    apply negb_true_iff in Hc. rewrite Hc, (IH Hp). reflexivity.
Qed.

Example strings_Split_bearer :
  strings_Split "Bearer abc" " " = ["Bearer"; "abc"].
Proof. reflexivity. Qed.

Example strings_Split_empty : strings_Split "" " " = [""].
Proof. reflexivity. Qed.

Example strings_Split_doubled :
  strings_Split " a  b " " " = [""; "a"; ""; "b"; ""].
Proof. reflexivity. Qed.

End RuntimeFacts.

(** ** base64 *)

Section Base64Facts.

Import base64.

(** Induction over a byte list three bytes at a time. *)
Lemma list_ind3 (A : Type) (P : list A -> Prop) :
  P [] -> (forall a, P [a]) -> (forall a b, P [a; b]) ->
  (forall a b c l, P l -> P (a :: b :: c :: l)) ->
  forall l, P l.
Proof.
  intros H0 H1 H2 H3 l.
  assert (G : P l /\ (forall a, P (a :: l)) /\ (forall a b, P (a :: b :: l))).
  { induction l as [|x l (IHa & IHb & IHc)]; [now auto|].
    repeat split; [apply IHb | intros; apply IHc | intros; now apply H3]. }
  apply G.
Qed.

(** The padded encoding is the unpadded one followed by the padding. *)
Lemma EncodeToString_padded (src : list byte) :
  EncodeToString URLEncoding src
  = EncodeToString RawURLEncoding src
    ++ pad URLEncoding ((3 - length src mod 3) mod 3).
Proof.
  induction src as [| a | a b | a b c l IH] using list_ind3;
    try reflexivity.
  cbn [EncodeToString]. rewrite IH. cbn [String.append].
  replace (length (a :: b :: c :: l) mod 3)%nat with (length l mod 3)%nat;
    [reflexivity|].
  cbn [length].
  change (S (S (S (length l)))) with (3 + length l)%nat.
  rewrite <- (Nat.Div0.add_mod_idemp_l 3 (length l) 3).
  reflexivity.
Qed.

(** The unpadded encoding has one character per six bits, rounded up. *)
Lemma EncodeToString_raw_length (src : list byte) :
  String.length (EncodeToString RawURLEncoding src)
  = ((length src * 8 + 5) / 6)%nat.
Proof.
  induction src as [| a | a b | a b c l IH] using list_ind3;
    try reflexivity.
  cbn [EncodeToString String.length length]. rewrite IH.
  replace (S (S (S (length l))) * 8 + 5)%nat
    with ((length l * 8 + 5) + 4 * 6)%nat by lia.
  rewrite Nat.div_add by lia. lia.
Qed.

(** The padded encoding has four characters per started group of three
    bytes. *)
Lemma EncodeToString_length (src : list byte) :
  String.length (EncodeToString URLEncoding src)
  = (4 * ((length src + 2) / 3))%nat.
Proof.
  induction src as [| a | a b | a b c l IH] using list_ind3;
    try reflexivity.
  cbn [EncodeToString String.length length]. rewrite IH.
  replace (S (S (S (length l))) + 2)%nat with ((length l + 2) + 1 * 3)%nat by lia.
  rewrite Nat.div_add by lia. lia.
Qed.


Lemma sextet_isURLChar (v : Z) : isURLChar (sextet URLEncoding v) = true.
Proof.
  unfold sextet.
  assert (Hb : 0 <= Z.land v 63 < 64).
  { change 63 with (Z.ones 6). rewrite Z.land_ones by lia.
    apply Z.mod_pos_bound. reflexivity. }
  assert (Hn : (Z.to_nat (Z.land v 63) < 64)%nat) by lia.
  generalize dependent (Z.to_nat (Z.land v 63)). intros n Hn.
  do 64 (destruct n as [|n]; [vm_compute; reflexivity|]).
  lia.
Qed.

Lemma EncodeToString_raw_alphabet (src : list byte) :
  forallb isURLChar
    (list_ascii_of_string (EncodeToString RawURLEncoding src)) = true.
Proof.
  assert (S : forall v, isURLChar (sextet RawURLEncoding v) = true)
    by (intros v; apply (sextet_isURLChar v)).
  induction src as [| a | a b | a b c l IH] using list_ind3;
    cbn [EncodeToString list_ascii_of_string forallb pad padChar RawURLEncoding];
    rewrite ?S, ?IH; reflexivity.
Qed.

(** The padding character is not in the alphabet. *)
Lemma StdPadding_not_URLChar : isURLChar StdPadding = false.
Proof. vm_compute. reflexivity. Qed.

(** The test vectors of RFC 4648, in the URL alphabet. *)
Example EncodeToString_foobar :
  EncodeToString URLEncoding (bytes_of "foobar") = "Zm9vYmFy".
Proof. reflexivity. Qed.

Example EncodeToString_fooba :
  EncodeToString URLEncoding (bytes_of "fooba") = "Zm9vYmE=".
Proof. reflexivity. Qed.

Example EncodeToString_foob :
  EncodeToString URLEncoding (bytes_of "foob") = "Zm9vYg==".
Proof. reflexivity. Qed.

Example EncodeToString_raw_foob :
  EncodeToString RawURLEncoding (bytes_of "foob") = "Zm9vYg".
Proof. reflexivity. Qed.

Example EncodeToString_url_alphabet :
  EncodeToString URLEncoding [xfb; xff; xfe] = "-__-".
Proof. reflexivity. Qed.

End Base64Facts.


(** ** The stand-in hash keeps bcrypt's contract *)

Section StandInFacts.

Import demo.

Lemma demo_digest_length (n : nat) (key data : list byte) :
  length (digest n key data) = n.
Proof. unfold demo.digest. now rewrite length_map, length_seq. Qed.

Lemma demo_generated_shape password cost w hash w' :
  GenerateFromPassword password cost w = ((hash, None), w') ->
  exists salt, length salt = 22%nat
               /\ hash = (prefix ++ salt ++ digest 31 salt password)%list.
Proof.
  unfold GenerateFromPassword, rand_Read.
  destruct (72 <? length password)%nat; [discriminate|].
  destruct (entropy w (reads w)) as [fill|e]; [|discriminate].
  intros [= <- _].
  exists (fill_from fill 0 (repeat x00 22)). split; [|reflexivity].
  now rewrite fill_from_length, repeat_length.
Qed.

Lemma demo_compare_generated password cost w hash w' :
  GenerateFromPassword password cost w = ((hash, None), w') ->
  CompareHashAndPassword hash password = None.
Proof.
  intros H. destruct (demo_generated_shape _ _ _ _ _ H) as (salt & Hs & ->).
  unfold CompareHashAndPassword.
  replace (length (prefix ++ salt ++ digest 31 salt password)%list) with 60%nat
    by (rewrite !length_app, demo_digest_length, Hs; reflexivity).
  cbn [Nat.ltb Nat.leb].
  replace (firstn 22 (skipn 7 (prefix ++ salt ++ digest 31 salt password)%list))
    with salt.
  - now rewrite String.eqb_refl.
  - change (skipn 7 (prefix ++ salt ++ digest 31 salt password)%list)
      with (salt ++ digest 31 salt password)%list.
    rewrite firstn_app, Hs, Nat.sub_diag. cbn [firstn].
    now rewrite app_nil_r, <- Hs, firstn_all.
Qed.

Lemma demo_generated_length password cost w hash w' :
  GenerateFromPassword password cost w = ((hash, None), w') ->
  length hash = 60%nat.
Proof.
  intros H. destruct (demo_generated_shape _ _ _ _ _ H) as (salt & Hs & ->).
  rewrite !length_app, demo_digest_length, Hs. reflexivity.
Qed.

Lemma demo_compare_too_short hash password :
  (length hash < 59)%nat -> CompareHashAndPassword hash password <> None.
Proof.
  intros H. unfold CompareHashAndPassword.
  apply Nat.ltb_lt in H. now rewrite H.
Qed.

Lemma demo_bcrypt_lawful : bcrypt.Lawful demo.bcryptLib.
Proof.
  constructor.
  - exact demo_compare_generated.
  - exact demo_generated_length.
  - exact demo_compare_too_short.
Qed.

End StandInFacts.

(** ** Package models: the hooks *)


Section ModelsFacts.

Import models.
Context {bc : bcrypt.Lib}.

Lemma drawn_length (fill : nat -> byte) : length (drawn fill) = 32%nat.
Proof. unfold drawn. now rewrite fill_from_length, repeat_length. Qed.

(** The generator reads the source once; what it returns is the encoding
    of what it read, and a failed read is a panic. *)
Lemma generateRandomString_eq (n : Z) (w : World) :
  0 <= n ->
  generateRandomString n w
  = match entropy w (reads w) with
    | ReadOk fill =>
        Returned (base64.EncodeToString base64.URLEncoding
                    (fill_from fill 0 (repeat x00 (Z.to_nat n)))) (tick w)
    | ReadErr e => Panicked e (tick w)
    end.
Proof.
  intros Hn. unfold generateRandomString, bind, make_bytes.
  destruct (n <? 0) eqn:E; [apply Z.ltb_lt in E; lia|].
  unfold ret, rand_Read, tick.
  destruct (entropy w (reads w)); reflexivity.
Qed.

Lemma generateRandomString_32 (w : World) :
  generateRandomString 32 w
  = match entropy w (reads w) with
    | ReadOk fill =>
        Returned (base64.EncodeToString base64.URLEncoding (drawn fill)) (tick w)
    | ReadErr e => Panicked e (tick w)
    end.
Proof. now rewrite generateRandomString_eq by lia. Qed.

Lemma hashPassword_empty (u : User) (w : World) :
  User_Password u = "" -> hashPassword u w = Returned (u, None) w.
Proof. intros H. unfold hashPassword. now rewrite H. Qed.

Lemma hashPassword_nonempty (u : User) (w : World) :
  User_Password u <> "" ->
  hashPassword u w
  = let '((hash, err), w') :=
      bcrypt.GenerateFromPassword (bytes_of (User_Password u)) bcrypt.DefaultCost w in
    match err with
    | Some e => Returned (u, Some e) w'
    | None =>
        Returned (set_User_Password "" (set_User_PasswordHash (string_of hash) u),
                  None) w'
    end.
Proof.
  intros H. unfold hashPassword.
  apply String.eqb_neq in H. rewrite H. cbn [negb].
  unfold bind, bcrypt_GenerateFromPassword.
  destruct (bcrypt.GenerateFromPassword _ _ w) as [[hash [e|]] w']; reflexivity.
Qed.

(** [hashPassword] always returns: it neither panics nor exits. *)
Lemma hashPassword_returns (u : User) (w : World) :
  exists u1 err w1, hashPassword u w = Returned (u1, err) w1.
Proof.
  destruct (String.eqb (User_Password u) "") eqn:E.
  - apply String.eqb_eq in E. rewrite (hashPassword_empty _ _ E). eauto.
  - apply String.eqb_neq in E. rewrite (hashPassword_nonempty _ _ E).
    destruct (bcrypt.GenerateFromPassword _ _ w) as [[hash [e|]] w']; eauto.
Qed.

(** The creation hook in terms of its two steps. *)
Lemma User_BeforeCreate_eq (u : User) (tx : gorm.DB) (w : World) :
  User_BeforeCreate u tx w
  = match hashPassword u w with
    | Returned (u1, Some e) w1 => Returned (u1, Some e) w1
    | Returned (u1, None) w1 =>
        match entropy w1 (reads w1) with
        | ReadOk fill =>
            Returned (set_User_VerificationCode
                        (base64.EncodeToString base64.URLEncoding (drawn fill)) u1,
                      None) (tick w1)
        | ReadErr e => Panicked e (tick w1)
        end
    | Panicked v w1 => Panicked v w1
    | Exited m w1 => Exited m w1
    end.
Proof.
  unfold User_BeforeCreate, bind.
  destruct (hashPassword u w) as [[u1 [e|]] w1| |]; try reflexivity.
  rewrite generateRandomString_32.
  destruct (entropy w1 (reads w1)); reflexivity.
Qed.

Lemma User_VerificationCode_set (v : string) (u : User) :
  User_VerificationCode (set_User_VerificationCode v u) = v.
Proof. now destruct u. Qed.

Lemma User_PasswordHash_set_code (v : string) (u : User) :
  User_PasswordHash (set_User_VerificationCode v u) = User_PasswordHash u.
Proof. now destruct u. Qed.

Lemma User_Password_set_code (v : string) (u : User) :
  User_Password (set_User_VerificationCode v u) = User_Password u.
Proof. now destruct u. Qed.

Lemma User_Password_hashed (p h : string) (u : User) :
  User_Password (set_User_Password p (set_User_PasswordHash h u)) = p.
Proof. now destruct u. Qed.

Lemma User_PasswordHash_hashed (p h : string) (u : User) :
  User_PasswordHash (set_User_Password p (set_User_PasswordHash h u)) = h.
Proof. now destruct u. Qed.

Lemma User_Email_set_code (v : string) (u : User) :
  User_Email (set_User_VerificationCode v u) = User_Email u.
Proof. now destruct u. Qed.

Lemma stamp_fields (t : store.Table) (now : Time) (u : User) :
  User_Email (store.stamp t now u) = User_Email u
  /\ User_Password (store.stamp t now u) = User_Password u
  /\ User_PasswordHash (store.stamp t now u) = User_PasswordHash u
  /\ User_VerificationCode (store.stamp t now u) = User_VerificationCode u.
Proof. now destruct u. Qed.

(** [db.Create] in terms of the hook. *)
Lemma Create_callbacks_eq (t : store.Table) (db : gorm.DB) (u : User) (w : World) :
  store.Create_callbacks t db u w
  = match User_BeforeCreate u db w with
    | Returned (u1, Some e) w1 =>
        Returned (t, u1, gorm.mkDB (gorm.DB_Statement db) (Some e)) w1
    | Returned (u1, None) w1 =>
        if existsb (fun r => String.eqb (User_Email r) (User_Email u1)) t then
          Returned (t, u1, gorm.mkDB (gorm.DB_Statement db)
                     (Some "duplicate key value violates unique constraint")) w1
        else
          Returned ((t ++ [store.stamp t (wallclock w1) u1])%list,
                    store.stamp t (wallclock w1) u1,
                    gorm.mkDB (gorm.DB_Statement db) None) w1
    | Panicked v w1 => Panicked v w1
    | Exited m w1 => Exited m w1
    end.
Proof.
  unfold store.Create_callbacks, bind.
  destruct (User_BeforeCreate u db w) as [[u1 [e|]] w1| |]; try reflexivity.
  destruct (existsb _ t); reflexivity.
Qed.

(** [db.Create] by what gorm says of the statement. *)
Lemma Create_parsed {ss : store.Session} (t : store.Table) (db : gorm.DB)
    (u : User) (w : World) :
  store.Parse_User = None ->
  store.Create t db u w = store.Create_callbacks t db u w.
Proof. intros H. unfold store.Create. now rewrite H. Qed.

Lemma Create_unparsed {ss : store.Session} (t : store.Table) (db : gorm.DB)
    (u : User) (w : World) (e : error) :
  store.Parse_User = Some e ->
  store.Create t db u w
  = Returned (t, u, gorm.mkDB (gorm.DB_Statement db) (Some e)) w.
Proof. intros H. unfold store.Create. now rewrite H. Qed.

(** A create that ends without error has run the hook, which succeeded,
    and has appended the hooked record, stamped. *)
Lemma Create_stored {ss : store.Session} (t t' : store.Table) (db db' : gorm.DB)
    (u row : User) (w w' : World) :
  store.Create t db u w = Returned (t', row, db') w' ->
  gorm.DB_Error db' = None ->
  store.Parse_User = None
  /\ exists u1,
       User_BeforeCreate u db w = Returned (u1, None) w'
       /\ row = store.stamp t (wallclock w') u1
       /\ t' = (t ++ [row])%list.
Proof.
  unfold store.Create.
  destruct store.Parse_User as [e|] eqn:P.
  - unfold ret. intros H He.
    assert (D : db' = gorm.mkDB (gorm.DB_Statement db) (Some e)) by congruence.
    rewrite D in He. discriminate He.
  - rewrite Create_callbacks_eq.
    destruct (User_BeforeCreate u db w) as [[u1 [e|]] w1| |]; try discriminate.
    + intros H He.
      assert (D : db' = gorm.mkDB (gorm.DB_Statement db) (Some e)) by congruence.
      rewrite D in He. discriminate He.
    + destruct (existsb _ t).
      * intros H He.
        assert (D : db' = gorm.mkDB (gorm.DB_Statement db)
                            (Some "duplicate key value violates unique constraint"))
          by congruence.
        rewrite D in He. discriminate He.
      * intros H _. split; [reflexivity|]. exists u1.
        assert (Hw : w' = w1) by congruence. subst w'.
        split; [reflexivity|]. split; congruence.
Qed.

End ModelsFacts.

(** ** Users: creation and update *)

Section UserClaims.

Import models.

(** C1. For every bcrypt that keeps its contract, and a user created
    with a non-empty plaintext password: when the
    creation hook succeeds, the password field is empty and the password
    hash is the hash bcrypt generated from the plaintext, which bcrypt's
    comparison accepts against that plaintext; the same holds of the row
    the create callbacks of [db.Create] store.  When bcrypt's hashing
    fails, the hook returns that error with the user untouched, and the
    create callbacks record the error and insert nothing.  The hook does
    succeed whenever hashing succeeds and the random source then
    delivers.  [db.Create] itself is these callbacks when gorm can build
    the statement; when it cannot, that error is the one recorded, and
    neither hook nor insert happens. *)
Theorem C1_create_hashes_password {bc : bcrypt.Lib}
    (u : User) (tx : gorm.DB) (t : store.Table) (w : World) :
  bcrypt.Lawful bc ->
  User_Password u <> "" ->
  (forall u' w',
      User_BeforeCreate u tx w = Returned (u', None) w' ->
      User_Password u' = ""
      /\ bcrypt.CompareHashAndPassword
           (bytes_of (User_PasswordHash u')) (bytes_of (User_Password u)) = None
      /\ exists hash w1,
           bcrypt.GenerateFromPassword
             (bytes_of (User_Password u)) bcrypt.DefaultCost w = ((hash, None), w1)
           /\ User_PasswordHash u' = string_of hash)
  /\ (forall t' row db' w',
      store.Create_callbacks t tx u w = Returned (t', row, db') w' ->
      gorm.DB_Error db' = None ->
      t' = (t ++ [row])%list
      /\ User_Password row = ""
      /\ bcrypt.CompareHashAndPassword
           (bytes_of (User_PasswordHash row)) (bytes_of (User_Password u)) = None)
  /\ (forall hash e w1,
      bcrypt.GenerateFromPassword
        (bytes_of (User_Password u)) bcrypt.DefaultCost w = ((hash, Some e), w1) ->
      User_BeforeCreate u tx w = Returned (u, Some e) w1
      /\ store.Create_callbacks t tx u w
         = Returned (t, u, gorm.mkDB (gorm.DB_Statement tx) (Some e)) w1)
  /\ (forall hash w1 fill,
      bcrypt.GenerateFromPassword
        (bytes_of (User_Password u)) bcrypt.DefaultCost w = ((hash, None), w1) ->
      entropy w1 (reads w1) = ReadOk fill ->
      exists u', User_BeforeCreate u tx w = Returned (u', None) (tick w1))
  /\ (forall ss : store.Session,
      (store.Parse_User = None ->
       store.Create t tx u w = store.Create_callbacks t tx u w)
      /\ (forall e0,
          store.Parse_User = Some e0 ->
          store.Create t tx u w
          = Returned (t, u, gorm.mkDB (gorm.DB_Statement tx) (Some e0)) w)).
Proof.
  intros Law Hpw.
  assert (Hook : forall u' w',
      User_BeforeCreate u tx w = Returned (u', None) w' ->
      User_Password u' = ""
      /\ bcrypt.CompareHashAndPassword
           (bytes_of (User_PasswordHash u')) (bytes_of (User_Password u)) = None
      /\ exists hash w1,
           bcrypt.GenerateFromPassword
             (bytes_of (User_Password u)) bcrypt.DefaultCost w = ((hash, None), w1)
           /\ User_PasswordHash u' = string_of hash).
  { intros u' w'. rewrite User_BeforeCreate_eq, (hashPassword_nonempty _ _ Hpw).
    destruct (bcrypt.GenerateFromPassword _ _ w) as [[hash [e|]] w1] eqn:G;
      [discriminate|].
    destruct (entropy w1 (reads w1)) as [fill|e]; [|discriminate].
    intros [= <- <-].
    rewrite User_Password_set_code, User_PasswordHash_set_code.
    rewrite User_Password_hashed, User_PasswordHash_hashed.
    split; [reflexivity|]. split; [|now eauto].
    unfold bytes_of at 1. unfold string_of.
    rewrite list_byte_of_string_of_list_byte.
    exact (bcrypt.compare_generated _ _ _ _ _ G). }
  split; [exact Hook|]. split; [|split; [|split]].
  - intros t' row db' w'. rewrite Create_callbacks_eq.
    destruct (User_BeforeCreate u tx w) as [[u1 [e|]] w1| |] eqn:B;
      try discriminate.
    + intros [= <- <- <- <-]. discriminate.
    + destruct (Hook _ _ eq_refl) as (Hp & Hc & _).
      destruct (existsb _ t).
      * intros [= <- <- <- <-]. discriminate.
      * intros [= <- <- <- <-] _.
        destruct (stamp_fields t (wallclock w1) u1) as (_ & -> & -> & _).
        now repeat split.
  - intros hash e w1 G.
    assert (B : User_BeforeCreate u tx w = Returned (u, Some e) w1).
    { rewrite User_BeforeCreate_eq, (hashPassword_nonempty _ _ Hpw), G.
      reflexivity. }
    split; [exact B|]. now rewrite Create_callbacks_eq, B.
  - intros hash w1 fill G E.
    rewrite User_BeforeCreate_eq, (hashPassword_nonempty _ _ Hpw), G, E.
    eauto.
  - intros ss. split; [apply Create_parsed | intros e0; apply Create_unparsed].
Qed.

(** C1 at a concrete user, with the stand-in hash. *)
Lemma C1_create_hashes_password_witness :
  User_Password alice <> ""
  /\ exists u',
       User_BeforeCreate (bc := demo.bcryptLib) alice demo.tx demo.steady
       = Returned (u', None) (tick (tick demo.steady))
       /\ User_Password u' = ""
       /\ demo.CompareHashAndPassword
            (bytes_of (User_PasswordHash u')) (bytes_of "hunter2") = None.
Proof.
  assert (Hpw : User_Password alice <> "") by discriminate.
  split; [exact Hpw|].
  destruct (C1_create_hashes_password (bc := demo.bcryptLib)
              alice demo.tx [] demo.steady demo_bcrypt_lawful Hpw)
    as (Hook & _ & _ & Runs & _).
  destruct (Runs (demo.prefix ++ drawn_salt ++ demo.digest 31 drawn_salt
                    (bytes_of "hunter2"))%list
              (tick demo.steady) demo.counting eq_refl eq_refl) as (u' & B).
  exists u'. split; [exact B|].
  destruct (Hook _ _ B) as (Hp & Hc & _). split; [exact Hp | exact Hc].
Defined.

End UserClaims.

Section VerificationCode.

Import models.


(** C2, as stated, fails: the hook encodes with [base64.URLEncoding],
    which pads, so the code of 32 bytes has 44 characters.  For the user
    [nobody] and the bytes 0..31 it is
    [AAECAwQFBgcICQoLDA0ODxAREhMUFRYXGBkaGxwdHh8=]. *)
Lemma C2_verification_code_counterexample : ~ code_has_43_characters.
Proof.
  intros H.
  specialize (H demo.bcryptLib nobody demo.tx demo.steady
                (set_User_VerificationCode
                   "AAECAwQFBgcICQoLDA0ODxAREhMUFRYXGBkaGxwdHh8=" nobody)
                (tick demo.steady)).
  assert (E : User_BeforeCreate (bc := demo.bcryptLib) nobody demo.tx demo.steady
              = Returned (set_User_VerificationCode
                   "AAECAwQFBgcICQoLDA0ODxAREhMUFRYXGBkaGxwdHh8=" nobody, None)
                  (tick demo.steady))
    by (vm_compute; reflexivity).
  specialize (H E). vm_compute in H. discriminate H.
Qed.

(** C2, amended.  When the creation hook succeeds, the verification code
    is the padded base64url encoding of the 32 bytes read from the random
    source: 44 characters, namely 43 characters of the URL alphabet (the
    unpadded encoding of the 32 bytes) followed by one [=]. *)
Theorem C2_verification_code {bc : bcrypt.Lib}
    (u : User) (tx : gorm.DB) (w : World) (u' : User) (w' : World) :
  User_BeforeCreate u tx w = Returned (u', None) w' ->
  exists (w1 : World) (fill : nat -> byte),
    entropy w1 (reads w1) = ReadOk fill
    /\ w' = tick w1
    /\ length (drawn fill) = 32%nat
    /\ User_VerificationCode u'
       = base64.EncodeToString base64.URLEncoding (drawn fill)
    /\ String.length (User_VerificationCode u') = 44%nat
    /\ User_VerificationCode u'
       = base64.EncodeToString base64.RawURLEncoding (drawn fill) ++ "="
    /\ String.length
         (base64.EncodeToString base64.RawURLEncoding (drawn fill)) = 43%nat
    /\ forallb isURLChar
         (list_ascii_of_string
            (base64.EncodeToString base64.RawURLEncoding (drawn fill))) = true.
Proof.
  rewrite User_BeforeCreate_eq.
  destruct (hashPassword u w) as [[u1 [e|]] w1| |]; try discriminate.
  destruct (entropy w1 (reads w1)) as [fill|e] eqn:E; [|discriminate].
  intros H.
  assert (Hu : u' = set_User_VerificationCode
                      (base64.EncodeToString base64.URLEncoding (drawn fill)) u1)
    by congruence.
  assert (Hw : w' = tick w1) by congruence.
  subst u' w'. clear H. exists w1, fill.
  rewrite User_VerificationCode_set.
  pose proof (drawn_length fill) as L.
  set (bytes := drawn fill) in *. clearbody bytes.
  split; [exact E|]. split; [reflexivity|]. split; [exact L|].
  split; [reflexivity|]. split; [|split; [|split]].
  - rewrite EncodeToString_length, L. reflexivity.
  - rewrite EncodeToString_padded, L. reflexivity.
  - rewrite EncodeToString_raw_length, L. reflexivity.
  - apply EncodeToString_raw_alphabet.
Qed.

(** C2 (amended) at a concrete creation. *)
Lemma C2_verification_code_witness :
  exists u',
    User_BeforeCreate (bc := demo.bcryptLib) nobody demo.tx demo.steady
    = Returned (u', None) (tick demo.steady)
    /\ User_VerificationCode u' = "AAECAwQFBgcICQoLDA0ODxAREhMUFRYXGBkaGxwdHh8="
    /\ String.length (User_VerificationCode u') = 44%nat.
Proof.
  exists (set_User_VerificationCode
            "AAECAwQFBgcICQoLDA0ODxAREhMUFRYXGBkaGxwdHh8=" nobody).
  assert (E : User_BeforeCreate (bc := demo.bcryptLib) nobody demo.tx demo.steady
              = Returned (set_User_VerificationCode
                   "AAECAwQFBgcICQoLDA0ODxAREhMUFRYXGBkaGxwdHh8=" nobody, None)
                  (tick demo.steady))
    by (vm_compute; reflexivity).
  split; [exact E|]. split; [reflexivity|].
  destruct (C2_verification_code (bc := demo.bcryptLib) _ _ _ _ _ E)
    as (w1 & fill & _ & _ & _ & _ & L & _).
  exact L.
Defined.

(** C3. An update in which [Password] is not marked as changed: the
    update hook returns no error and leaves the user, and so its password
    hash, exactly as it was; it reads neither the random source nor the
    clock. *)
Theorem C3_update_preserves_hash {bc : bcrypt.Lib}
    (u : User) (tx : gorm.DB) (w : World) :
  gorm.Changed (gorm.DB_Statement tx) "Password" = false ->
  exists u',
    User_BeforeUpdate u tx w = Returned (u', None) w
    /\ User_PasswordHash u' = User_PasswordHash u
    /\ u' = u.
Proof.
  intros H. exists u. unfold User_BeforeUpdate. rewrite H. now repeat split.
Qed.

(** C3 at a user that still carries a plaintext password. *)
Lemma C3_update_preserves_hash_witness :
  exists u',
    User_BeforeUpdate (bc := demo.bcryptLib) alice demo.tx demo.steady
    = Returned (u', None) demo.steady
    /\ User_PasswordHash u' = User_PasswordHash alice
    /\ u' = alice.
Proof.
  apply (C3_update_preserves_hash (bc := demo.bcryptLib) alice demo.tx demo.steady).
  reflexivity.
Defined.

(** C9. A user created with an empty password: the hashing step returns
    no error and changes nothing; the creation hook never returns an
    error, and when it returns, the password hash is the caller's and the
    verification code has been overwritten with the encoding of 32 fresh
    bytes.  It returns whenever the read of the random source succeeds
    (a failed read is the panic of the generator).  Whenever [db.Create]
    ends without error, the row it has appended carries the caller's
    hash, empty or not, and the fresh code.  It does end so when gorm can
    build the statement, the read succeeds and the email is free; when
    gorm cannot build the statement, neither the hook nor the insert
    happens. *)
Theorem C9_create_without_password {bc : bcrypt.Lib} {ss : store.Session}
    (u : User) (tx : gorm.DB) (t : store.Table) (w : World) :
  User_Password u = "" ->
  hashPassword u w = Returned (u, None) w
  /\ (forall u' err w',
        User_BeforeCreate u tx w = Returned (u', err) w' ->
        err = None
        /\ User_PasswordHash u' = User_PasswordHash u
        /\ exists fill,
             entropy w (reads w) = ReadOk fill
             /\ u' = set_User_VerificationCode
                       (base64.EncodeToString base64.URLEncoding (drawn fill)) u)
  /\ (forall fill,
        entropy w (reads w) = ReadOk fill ->
        User_BeforeCreate u tx w
        = Returned (set_User_VerificationCode
                      (base64.EncodeToString base64.URLEncoding (drawn fill)) u,
                    None) (tick w))
  /\ (forall t' row db' w',
        store.Create t tx u w = Returned (t', row, db') w' ->
        gorm.DB_Error db' = None ->
        t' = (t ++ [row])%list
        /\ User_Password row = ""
        /\ User_PasswordHash row = User_PasswordHash u
        /\ exists fill,
             entropy w (reads w) = ReadOk fill
             /\ User_VerificationCode row
                = base64.EncodeToString base64.URLEncoding (drawn fill))
  /\ (forall fill,
        store.Parse_User = None ->
        entropy w (reads w) = ReadOk fill ->
        existsb (fun r => String.eqb (User_Email r) (User_Email u)) t = false ->
        exists row,
          store.Create t tx u w
          = Returned ((t ++ [row])%list, row,
                      gorm.mkDB (gorm.DB_Statement tx) None) (tick w)
          /\ User_PasswordHash row = User_PasswordHash u)
  /\ (forall e,
        store.Parse_User = Some e ->
        store.Create t tx u w
        = Returned (t, u, gorm.mkDB (gorm.DB_Statement tx) (Some e)) w).
Proof.
  intros Hpw.
  pose proof (hashPassword_empty u w Hpw) as Hh.
  assert (Hook : forall u' err w',
            User_BeforeCreate u tx w = Returned (u', err) w' ->
            err = None
            /\ User_PasswordHash u' = User_PasswordHash u
            /\ exists fill,
                 entropy w (reads w) = ReadOk fill
                 /\ u' = set_User_VerificationCode
                           (base64.EncodeToString base64.URLEncoding (drawn fill)) u).
  { intros u' err w'. rewrite User_BeforeCreate_eq, Hh.
    destruct (entropy w (reads w)) as [fill|e]; [|discriminate].
    intros [= <- <- <-]. rewrite User_PasswordHash_set_code.
    repeat split. now exists fill. }
  assert (Runs : forall fill,
            entropy w (reads w) = ReadOk fill ->
            User_BeforeCreate u tx w
            = Returned (set_User_VerificationCode
                          (base64.EncodeToString base64.URLEncoding (drawn fill)) u,
                        None) (tick w))
    by (intros fill E; now rewrite User_BeforeCreate_eq, Hh, E).
  split; [exact Hh|]. split; [exact Hook|]. split; [exact Runs|].
  split; [|split].
  - intros t' row db' w' C He.
    destruct (Create_stored _ _ _ _ _ _ _ _ C He) as (_ & u1 & B & -> & ->).
    destruct (Hook _ _ _ B) as (_ & Hash & fill & E & Hu).
    destruct (stamp_fields t (wallclock w') u1) as (_ & -> & -> & ->).
    split; [reflexivity|].
    split; [rewrite Hu, User_Password_set_code; exact Hpw|].
    split; [exact Hash|]. exists fill. split; [exact E|].
    rewrite Hu. apply User_VerificationCode_set.
  - intros fill P E Free.
    set (u' := set_User_VerificationCode
                 (base64.EncodeToString base64.URLEncoding (drawn fill)) u).
    exists (store.stamp t (wallclock (tick w)) u').
    rewrite (Create_parsed _ _ _ _ P), Create_callbacks_eq, (Runs fill E).
    fold u'. unfold u' at 1. rewrite User_Email_set_code, Free.
    destruct (stamp_fields t (wallclock (tick w)) u') as (_ & _ & -> & _).
    unfold u'. now rewrite User_PasswordHash_set_code.
  - intros e P. now apply Create_unparsed.
Qed.

(** C9 at a user with neither password nor hash.  In a session where
    gorm builds the statement the row is stored with an empty hash; in
    one where it does not, nothing is stored and the record still carries
    the caller's stale code, the hook not having run. *)
Lemma C9_create_without_password_witness :
  (exists row,
     store.Create (bc := demo.bcryptLib) (ss := demo.parsed)
       [] demo.tx nobody demo.steady
     = Returned ([row], row, gorm.mkDB (gorm.DB_Statement demo.tx) None)
         (tick demo.steady)
     /\ User_PasswordHash row = "")
  /\ exists e,
       store.Create (bc := demo.bcryptLib) (ss := demo.unparsed)
         [] demo.tx nobody demo.steady
       = Returned ([], nobody, gorm.mkDB (gorm.DB_Statement demo.tx) (Some e))
           demo.steady.
Proof.
  split.
  - destruct (C9_create_without_password (bc := demo.bcryptLib) (ss := demo.parsed)
                nobody demo.tx [] demo.steady eq_refl)
      as (_ & _ & _ & _ & Stored & _).
    exact (Stored demo.counting eq_refl eq_refl eq_refl).
  - eexists.
    destruct (C9_create_without_password (bc := demo.bcryptLib)
                (ss := demo.unparsed) nobody demo.tx [] demo.steady eq_refl)
      as (_ & _ & _ & _ & _ & Fails).
    exact (Fails _ eq_refl).
Defined.

End VerificationCode.

(** ** Subscriptions and API keys *)

Section DefaultsAndKeys.

Import models.

(** C6. Creating a subscription: the hook returns no error and leaves the
    world as it was; the status becomes ["trialing"] exactly when it was
    empty, the start date becomes the current time exactly when it was
    the zero time, and every other field is as the caller gave it. *)
Theorem C6_subscription_defaults (s : Subscription) (tx : gorm.DB) (w : World) :
  Subscription_BeforeCreate s tx w
  = Returned
      (mkSubscription
         (Subscription_Base s)
         (Subscription_OrganizationID s)
         (Subscription_SubscriptionPlan s)
         (if String.eqb (Subscription_Status s) "" then "trialing"
          else Subscription_Status s)
         (if IsZero (Subscription_StartDate s) then wallclock w
          else Subscription_StartDate s)
         (Subscription_EndDate s)
         (Subscription_Transactions s)
         (Subscription_PaymentMethod s)
         (Subscription_LastPaymentDate s)
         (Subscription_NextBillingDate s),
       None) w.
Proof.
  destruct s as [b o p st sd ed tr pm lp nb].
  unfold Subscription_BeforeCreate, bind, time_Now, ret.
  cbn [Subscription_Status Subscription_StartDate Subscription_Base
       Subscription_OrganizationID Subscription_SubscriptionPlan
       Subscription_EndDate Subscription_Transactions
       Subscription_PaymentMethod Subscription_LastPaymentDate
       Subscription_NextBillingDate].
  destruct (String.eqb st ""); cbn [set_Subscription_Status Subscription_StartDate];
    destruct (IsZero sd); reflexivity.
Qed.

(** C6 on a subscription with neither status nor start date. *)
Lemma C6_subscription_defaults_witness :
  Subscription_BeforeCreate blank_subscription demo.tx demo.steady
  = Returned
      (mkSubscription main.zeroBase 7 zeroPlan "trialing"
         (mkTime 63800000000 0) zeroTime [] "card" zeroTime zeroTime, None)
      demo.steady.
Proof.
  exact (C6_subscription_defaults blank_subscription demo.tx demo.steady).
Defined.

(** C7. When the read of the system random source fails, the generator
    panics with that error and returns nothing, and so do the two hooks
    that call it (the API key hook; the user hook once hashing is past).
    Conversely whatever the generator returns is the encoding of the
    bytes that one read of the system source delivered: there is no other
    source. *)
Theorem C7_random_failure_panics (n : Z) (w : World) (e : error) :
  0 <= n ->
  entropy w (reads w) = ReadErr e ->
  generateRandomString n w = Panicked e (tick w)
  /\ (forall s w', generateRandomString n w <> Returned s w')
  /\ (forall k tx, APIKey_BeforeCreate k tx w = Panicked e (tick w))
  /\ (forall (bc : bcrypt.Lib) u tx w0 u1,
        hashPassword u w0 = Returned (u1, None) w ->
        User_BeforeCreate u tx w0 = Panicked e (tick w))
  /\ (forall w0 s w',
        generateRandomString n w0 = Returned s w' ->
        exists fill,
          entropy w0 (reads w0) = ReadOk fill
          /\ s = base64.EncodeToString base64.URLEncoding
                   (fill_from fill 0 (repeat x00 (Z.to_nat n)))
          /\ w' = tick w0).
Proof.
  intros Hn E.
  assert (G : generateRandomString n w = Panicked e (tick w))
    by (now rewrite generateRandomString_eq, E).
  split; [exact G|]. split; [|split; [|split]].
  - intros s w'. rewrite G. discriminate.
  - intros k tx. unfold APIKey_BeforeCreate, bind.
    now rewrite generateRandomString_32, E.
  - intros bc u tx w0 u1 Hh. now rewrite User_BeforeCreate_eq, Hh, E.
  - intros w0 s w'. rewrite generateRandomString_eq by exact Hn.
    destruct (entropy w0 (reads w0)) as [fill|e0]; [|discriminate].
    intros H. exists fill. split; [reflexivity|]. split; congruence.
Qed.

(** C7 with a broken random source. *)
Lemma C7_random_failure_panics_witness :
  generateRandomString 32 demo.broken
  = Panicked "read /dev/urandom: input/output error" (tick demo.broken)
  /\ User_BeforeCreate (bc := demo.bcryptLib) nobody demo.tx demo.broken
     = Panicked "read /dev/urandom: input/output error" (tick demo.broken).
Proof.
  assert (Hn : 0 <= 32) by lia.
  destruct (C7_random_failure_panics 32 demo.broken
              "read /dev/urandom: input/output error" Hn eq_refl)
    as (G & _ & _ & U & _).
  split; [exact G|].
  exact (U demo.bcryptLib nobody demo.tx demo.broken nobody eq_refl).
Defined.

(** C8. Creating an API key: the hook never returns an error.  When it
    returns, the key is the base64url encoding of the 32 bytes just read
    from the random source and every other field, the expiry and the
    last-used time among them, is the caller's.  It returns whenever the
    read succeeds; a failed read is the generator's panic. *)
Theorem C8_apikey_create (k : APIKey) (tx : gorm.DB) (w : World) :
  (forall k' err w',
      APIKey_BeforeCreate k tx w = Returned (k', err) w' ->
      err = None
      /\ exists fill,
           entropy w (reads w) = ReadOk fill
           /\ length (drawn fill) = 32%nat
           /\ k' = mkAPIKey (APIKey_Base k) (APIKey_UserID k)
                     (APIKey_OrganizationID k)
                     (base64.EncodeToString base64.URLEncoding (drawn fill))
                     (APIKey_Name k) (APIKey_Permissions k)
                     (APIKey_ExpiresAt k) (APIKey_LastUsedAt k)
           /\ w' = tick w)
  /\ (forall fill,
        entropy w (reads w) = ReadOk fill ->
        exists k', APIKey_BeforeCreate k tx w = Returned (k', None) (tick w)
                   /\ APIKey_ExpiresAt k' = APIKey_ExpiresAt k
                   /\ APIKey_LastUsedAt k' = APIKey_LastUsedAt k)
  /\ (forall e,
        entropy w (reads w) = ReadErr e ->
        APIKey_BeforeCreate k tx w = Panicked e (tick w)).
Proof.
  assert (B : APIKey_BeforeCreate k tx w
              = match entropy w (reads w) with
                | ReadOk fill =>
                    Returned
                      (mkAPIKey (APIKey_Base k) (APIKey_UserID k)
                         (APIKey_OrganizationID k)
                         (base64.EncodeToString base64.URLEncoding (drawn fill))
                         (APIKey_Name k) (APIKey_Permissions k)
                         (APIKey_ExpiresAt k) (APIKey_LastUsedAt k), None) (tick w)
                | ReadErr e => Panicked e (tick w)
                end).
  { unfold APIKey_BeforeCreate, bind. rewrite generateRandomString_32.
    destruct (entropy w (reads w)); [|reflexivity]. now destruct k. }
  rewrite B. split; [|split].
  - intros k' err w'.
    destruct (entropy w (reads w)) as [fill|e]; [|discriminate].
    intros H. split; [congruence|]. exists fill.
    split; [reflexivity|]. split; [apply drawn_length|]. split; congruence.
  - intros fill ->. eexists. split; [reflexivity|]. now split.
  - now intros e ->.
Qed.

(** C8 on a key whose caller chose all fields: the key string is
    replaced, the rest stays. *)
Lemma C8_apikey_create_witness :
  exists k',
    APIKey_BeforeCreate ci_key demo.tx demo.steady
    = Returned (k', None) (tick demo.steady)
    /\ APIKey_ExpiresAt k' = mkTime 64000000000 0
    /\ APIKey_LastUsedAt k' = mkTime 63700000000 5.
Proof.
  destruct (C8_apikey_create ci_key demo.tx demo.steady) as (_ & Runs & _).
  exact (Runs demo.counting eq_refl).
Defined.

End DefaultsAndKeys.

(** ** The default administrator *)

Section DefaultAdmin.

Import models.

Lemma matching_free (t : store.Table) (email : string) :
  existsb (fun r => String.eqb (User_Email r) email) t = false ->
  store.matching t email = 0.
Proof.
  intros H. unfold store.matching.
  induction t as [|r t IH]; [reflexivity|].
  cbn [existsb] in H. apply orb_false_iff in H as [Hr Ht].
  cbn [List.filter]. rewrite Hr. cbn [andb]. exact (IH Ht).
Qed.

(** [createDefaultAdmin] when gorm cannot build the statement: the count
    stays zero whatever the table holds, the create fails, and the
    process exits. *)
Lemma createDefaultAdmin_unparsed {bc : bcrypt.Lib} {ss : store.Session}
    (t : store.Table) (db : gorm.DB) (w : World) (e : error) :
  store.Parse_User = Some e ->
  main.createDefaultAdmin t db w
  = Exited ("Failed to create admin user: " ++ e) w.
Proof.
  intros P. unfold main.createDefaultAdmin, store.CountByEmail. rewrite P.
  cbn [Z.eqb]. unfold bind. now rewrite (Create_unparsed _ _ _ _ _ P).
Qed.

(** [createDefaultAdmin] when gorm builds the statement. *)
Lemma createDefaultAdmin_parsed {bc : bcrypt.Lib} {ss : store.Session}
    (t : store.Table) (db : gorm.DB) (w : World) :
  store.Parse_User = None ->
  main.createDefaultAdmin t db w
  = if store.matching t "admin" =? 0 then
      match entropy w (reads w) with
      | ReadErr e => Panicked e (tick w)
      | ReadOk fill =>
          if existsb (fun r => String.eqb (User_Email r) "admin") t then
            Exited "Failed to create admin user: duplicate key value violates unique constraint"
              (tick w)
          else
            Returned
              (t ++ [store.stamp t (wallclock (tick w))
                       (set_User_VerificationCode
                          (base64.EncodeToString base64.URLEncoding (drawn fill))
                          main.admin)])%list (tick w)
      end
    else Returned t w.
Proof.
  intros P. unfold main.createDefaultAdmin, store.CountByEmail. rewrite P.
  destruct (store.matching t "admin" =? 0); [|reflexivity].
  unfold bind.
  rewrite (Create_parsed _ _ _ _ P), Create_callbacks_eq, User_BeforeCreate_eq,
    (hashPassword_empty main.admin w eq_refl).
  destruct (entropy w (reads w)) as [fill|e]; [|reflexivity].
  rewrite User_Email_set_code.
  change (User_Email main.admin) with "admin".
  destruct (existsb _ t); reflexivity.
Qed.

(** Whatever [createDefaultAdmin] returns is the old table, or the old
    table and one stamped administrator. *)
Lemma createDefaultAdmin_returned {bc : bcrypt.Lib} {ss : store.Session}
    (t t' : store.Table) (db : gorm.DB) (w w' : World) :
  main.createDefaultAdmin t db w = Returned t' w' ->
  store.Parse_User = None
  /\ ((store.matching t "admin" <> 0 /\ t' = t /\ w' = w)
      \/ (store.matching t "admin" = 0
          /\ exists fill,
               entropy w (reads w) = ReadOk fill
               /\ w' = tick w
               /\ t' = (t ++ [store.stamp t (wallclock (tick w))
                                (set_User_VerificationCode
                                   (base64.EncodeToString base64.URLEncoding
                                      (drawn fill)) main.admin)])%list)).
Proof.
  destruct store.Parse_User as [e|] eqn:P.
  - rewrite (createDefaultAdmin_unparsed _ _ _ _ P). discriminate.
  - rewrite (createDefaultAdmin_parsed _ _ _ P). split; [reflexivity|].
    destruct (store.matching t "admin" =? 0) eqn:C.
    + apply Z.eqb_eq in C. right. split; [exact C|].
      destruct (entropy w (reads w)) as [fill|e]; [|discriminate].
      destruct (existsb _ t); [discriminate|].
      exists fill. split; [reflexivity|]. split; congruence.
    + apply Z.eqb_neq in C. left. split; [exact C|]. split; congruence.
Qed.

(** C10. For every bcrypt that keeps its contract: the default
    administrator is built with an empty [Password] and with
    [PasswordHash] set to the literal ["password"]; the hashing step
    therefore returns at once and changes nothing.  Whenever [db.Create]
    of that record ends without error, and whenever [createDefaultAdmin]
    returns with a new row, the row stored holds the literal
    ["password"] in its hash field.  That does happen when gorm can
    build the statement, no row has the email ["admin"] and the random
    source delivers; when gorm cannot build the statement, nothing is
    stored and the process exits.  The literal is no bcrypt hash: bcrypt
    never generates it, and bcrypt's comparison rejects it for every
    password. *)
Theorem C10_default_admin {bc : bcrypt.Lib} {ss : store.Session}
    (t : store.Table) (db : gorm.DB) (w : World) :
  bcrypt.Lawful bc ->
  User_Password main.admin = ""
  /\ User_PasswordHash main.admin = "password"
  /\ hashPassword main.admin w = Returned (main.admin, None) w
  /\ (forall t' row db' w',
        store.Create t db main.admin w = Returned (t', row, db') w' ->
        gorm.DB_Error db' = None ->
        t' = (t ++ [row])%list
        /\ User_Email row = "admin"
        /\ User_Password row = ""
        /\ User_PasswordHash row = "password")
  /\ (forall t' w',
        main.createDefaultAdmin t db w = Returned t' w' ->
        (t' = t /\ w' = w)
        \/ exists row,
             t' = (t ++ [row])%list
             /\ User_Email row = "admin"
             /\ User_Password row = ""
             /\ User_PasswordHash row = "password")
  /\ (forall fill,
        store.Parse_User = None ->
        existsb (fun r => String.eqb (User_Email r) "admin") t = false ->
        entropy w (reads w) = ReadOk fill ->
        exists row,
          main.createDefaultAdmin t db w = Returned (t ++ [row])%list (tick w)
          /\ User_Email row = "admin"
          /\ User_Password row = ""
          /\ User_PasswordHash row = "password")
  /\ (forall e,
        store.Parse_User = Some e ->
        main.createDefaultAdmin t db w
        = Exited ("Failed to create admin user: " ++ e) w)
  /\ (forall password cost w0 hash w1,
        bcrypt.GenerateFromPassword password cost w0 = ((hash, None), w1) ->
        string_of hash <> "password")
  /\ (forall password,
        bcrypt.CompareHashAndPassword (bytes_of "password") password <> None).
Proof.
  intros Law.
  split; [reflexivity|]. split; [reflexivity|].
  assert (Hh : forall w0, hashPassword main.admin w0 = Returned (main.admin, None) w0)
    by (intros w0; now apply hashPassword_empty).
  assert (Row : forall now code,
            let row := store.stamp t now (set_User_VerificationCode code main.admin) in
            User_Email row = "admin" /\ User_Password row = ""
            /\ User_PasswordHash row = "password")
    by (intros now code; now repeat split).
  split; [apply Hh|]. split; [|split; [|split; [|split; [|split]]]].
  - intros t' row db' w' C He.
    destruct (Create_stored _ _ _ _ _ _ _ _ C He) as (_ & u1 & B & Hrow & Ht).
    split; [exact Ht|].
    rewrite User_BeforeCreate_eq, Hh in B.
    destruct (entropy w (reads w)) as [fill|e]; [|discriminate].
    assert (Hu : u1 = set_User_VerificationCode
                        (base64.EncodeToString base64.URLEncoding (drawn fill))
                        main.admin) by congruence.
    rewrite Hrow, Hu. apply Row.
  - intros t' w' H.
    destruct (createDefaultAdmin_returned _ _ _ _ _ H)
      as (_ & [(_ & -> & ->)|(_ & fill & _ & _ & ->)]); [now left|].
    right. eexists. split; [reflexivity|]. apply Row.
  - intros fill P Free E.
    rewrite (createDefaultAdmin_parsed _ _ _ P), (matching_free _ _ Free), E, Free.
    cbn [Z.eqb]. eexists. split; [reflexivity|]. apply Row.
  - intros e P. now apply createDefaultAdmin_unparsed.
  - intros password cost w0 hash w1 G Heq.
    apply bcrypt.generated_length in G.
    assert (Hb : hash = bytes_of "password").
    { unfold bytes_of. rewrite <- Heq. unfold string_of.
      now rewrite list_byte_of_string_of_list_byte. }
    rewrite Hb in G. discriminate G.
  - intros password. apply bcrypt.compare_too_short. cbn. lia.
Qed.

(** C10 on an empty table: in a session where gorm builds the statement
    the administrator is stored with the literal in its hash field; in
    one where it does not, the process exits and nothing is stored. *)
Lemma C10_default_admin_witness :
  (exists row,
     main.createDefaultAdmin (bc := demo.bcryptLib) (ss := demo.parsed)
       [] demo.tx demo.steady
     = Returned [row] (tick demo.steady)
     /\ User_Email row = "admin"
     /\ User_Password row = ""
     /\ User_PasswordHash row = "password")
  /\ exists msg,
       main.createDefaultAdmin (bc := demo.bcryptLib) (ss := demo.unparsed)
         [] demo.tx demo.steady
       = Exited msg demo.steady.
Proof.
  split.
  - destruct (C10_default_admin (bc := demo.bcryptLib) (ss := demo.parsed)
                [] demo.tx demo.steady demo_bcrypt_lawful)
      as (_ & _ & _ & _ & _ & Runs & _).
    exact (Runs demo.counting eq_refl eq_refl eq_refl).
  - eexists.
    destruct (C10_default_admin (bc := demo.bcryptLib) (ss := demo.unparsed)
                [] demo.tx demo.steady demo_bcrypt_lawful)
      as (_ & _ & _ & _ & _ & _ & Fails & _).
    exact (Fails _ eq_refl).
Defined.

End DefaultAdmin.

(** ** Package auth: extraction, verification and the gates *)


Section AuthFacts.

Context {L : jwt.Lib}.


Lemma ExtractToken_eq (c : gin.Context) :
  auth.ExtractToken c
  = match strings_Split (gin.GetHeader c "Authorization") " "%char with
    | [_; token] => token
    | _ => ""
    end.
Proof.
  unfold auth.ExtractToken.
  destruct (strings_Split _ _) as [|a [|b [|x l]]]; reflexivity.
Qed.

Lemma ExtractToken_bearer (c : gin.Context) (t : string) :
  gin.GetHeader c "Authorization" = "Bearer " ++ t ->
  no_space t ->
  auth.ExtractToken c = t.
Proof.
  intros H Ht. rewrite ExtractToken_eq, H.
  change ("Bearer " ++ t) with ("Bearer" ++ String " " t).
  rewrite strings_Split_app by reflexivity.
  now rewrite (strings_Split_none _ _ Ht).
Qed.

(** Verification reads nothing of the context but its headers. *)
Lemma VerifyToken_header (c c' : gin.Context) :
  gin.Request_Header c = gin.Request_Header c' ->
  auth.VerifyToken c = auth.VerifyToken c'.
Proof.
  intros H. unfold auth.VerifyToken, auth.ExtractToken, gin.GetHeader.
  now rewrite H.
Qed.

Lemma VerifyToken_empty (c : gin.Context) :
  auth.ExtractToken c = "" ->
  auth.VerifyToken c = ("", Some "token contains an invalid number of segments").
Proof. intros H. unfold auth.VerifyToken. now rewrite H. Qed.

Lemma VerifyToken_correctly_signed (c : gin.Context) (t role : string) :
  auth.ExtractToken c = t ->
  correctly_signed t role ->
  auth.VerifyToken c = (role, None).
Proof.
  intros Ht (Hlen & token & claims & alg & Hd & Hm & Hc & Hr & Hv & Hs).
  unfold auth.VerifyToken, jwt.Parse. rewrite Ht, Hlen, Hd.
  cbn [Nat.eqb negb]. unfold auth.keyFunc. rewrite Hm.
  cbn [jwt.Raw jwt.Method jwt.Claims_ jwt.Signature jwt.Valid].
  rewrite Hm in Hs. rewrite Hv, Hs.
  cbn [jwt.Raw jwt.Method jwt.Claims_ jwt.Signature jwt.Valid negb].
  now rewrite Hc, Hr.
Qed.

(** The converse: verification succeeds only on a correctly signed
    token, and the role it returns is the role claim of that token. *)
Lemma VerifyToken_only_correctly_signed (c : gin.Context) (role : string) :
  auth.VerifyToken c = (role, None) ->
  correctly_signed (auth.ExtractToken c) role.
Proof.
  unfold auth.VerifyToken, jwt.Parse, correctly_signed.
  set (parts := strings_Split (auth.ExtractToken c) ".").
  destruct (Nat.eqb (length parts) 3) eqn:Hlen; cbn [negb]; [|discriminate].
  apply Nat.eqb_eq in Hlen.
  destruct (jwt.decodeSegments parts) as [token|e] eqn:Hd; [|discriminate].
  unfold auth.keyFunc.
  destruct (jwt.Method token) as [alg| | | |] eqn:Hm; try discriminate.
  cbn [jwt.Raw jwt.Method jwt.Claims_ jwt.Signature jwt.Valid].
  destruct (jwt.claimsValid (jwt.Claims_ token)) as [e|] eqn:Hv; [discriminate|].
  destruct (jwt.Verify (jwt.SigningMethodHMAC alg) _ _ auth.jwtKey) as [e|] eqn:Hs;
    [discriminate|].
  cbn [jwt.Raw jwt.Method jwt.Claims_ jwt.Signature jwt.Valid negb].
  destruct (jwt.Claims_ token) as [claims|] eqn:Hc; [|discriminate].
  destruct (claims !! "role") as [[| | |r|]|] eqn:Hr; try discriminate.
  intros H. assert (r = role) by congruence. subst r.
  split; [exact Hlen|]. exists token, claims, alg.
  rewrite Hm, Hc. repeat split; assumption.
Qed.

Lemma VerifyToken_iff (c : gin.Context) (role : string) :
  auth.VerifyToken c = (role, None)
  <-> correctly_signed (auth.ExtractToken c) role.
Proof.
  split; [apply VerifyToken_only_correctly_signed|].
  now apply VerifyToken_correctly_signed.
Qed.

(** The two gates, case by case. *)
Lemma AuthMiddleware_eq (requiredRole : string) (c_Next : gin.Context -> gin.Context)
    (c : gin.Context) :
  (admits_exact requiredRole c
   /\ auth.AuthMiddleware requiredRole c_Next c = c_Next c)
  \/ (~ admits_exact requiredRole c
      /\ auth.AuthMiddleware requiredRole c_Next c = rejected c).
Proof.
  unfold auth.AuthMiddleware, admits_exact, rejected.
  destruct (auth.VerifyToken c) as [role [e|]].
  - right. split; [intros (r & [= _ ?] & _); discriminate | reflexivity].
  - rewrite bool_decide_false by (intros H; now apply H). cbn [orb].
    destruct (String.eqb role requiredRole) eqn:E; cbn [negb].
    + apply String.eqb_eq in E. left. split; [now exists role | reflexivity].
    + apply String.eqb_neq in E. right.
      split; [intros (r & [= ->] & Hr); contradiction | reflexivity].
Qed.

Lemma IsUserOrAdmin_eq (c_Next : gin.Context -> gin.Context) (c : gin.Context) :
  (admits_user_or_admin c /\ auth.IsUserOrAdmin c_Next c = c_Next c)
  \/ (~ admits_user_or_admin c /\ auth.IsUserOrAdmin c_Next c = rejected c).
Proof.
  unfold auth.IsUserOrAdmin, admits_user_or_admin, rejected.
  destruct (auth.VerifyToken c) as [role [e|]].
  - right. split; [intros (r & [= _ ?] & _); discriminate | reflexivity].
  - rewrite bool_decide_false by (intros H; now apply H). cbn [orb].
    unfold models.UserRole, models.AdminRole.
    destruct (String.eqb role "user") eqn:E1; cbn [negb andb].
    + apply String.eqb_eq in E1. left. split; [exists role; now auto | reflexivity].
    + destruct (String.eqb role "admin") eqn:E2; cbn [negb].
      * apply String.eqb_eq in E2. left.
        split; [exists role; now auto | reflexivity].
      * apply String.eqb_neq in E1. apply String.eqb_neq in E2. right.
        split; [|reflexivity].
        intros (r & [= ->] & [Hr|Hr]); contradiction.
Qed.

(** A chain whose first handler rejects: the engine runs nothing after
    it, whatever the pending handlers are. *)
Lemma handleHTTPRequest_rejected (gate : gin.HandlerFunc)
    (pending : list gin.HandlerFunc) (c : gin.Context) :
  (forall c_Next c0, gin.Request_Header c0 = gin.Request_Header c ->
                     gate c_Next c0 = rejected c0) ->
  gin.handleHTTPRequest (gate :: pending) c
  = gin.mkContext (gin.Request_Header c) (gin.abortIndex + 1)
      (gin.Writer c ++ [(gin.StatusUnauthorized, auth.unauthorized)])%list.
Proof.
  intros H. unfold gin.handleHTTPRequest. cbn [gin.Next].
  rewrite H by reflexivity. reflexivity.
Qed.

(** A chain whose first handler hands over: the guarded operation runs
    next, on the context as the request left it. *)
Lemma served_admitted (gate : gin.HandlerFunc) (c : gin.Context) :
  (forall c_Next c0, gin.Request_Header c0 = gin.Request_Header c ->
                     gate c_Next c0 = c_Next c0) ->
  served gate c = [(200, [("status", "ok")])].
Proof.
  intros H. unfold served, gin.handleHTTPRequest. cbn [gin.Next].
  rewrite H by reflexivity. reflexivity.
Qed.

Lemma served_rejected (gate : gin.HandlerFunc) (c : gin.Context) :
  (forall c_Next c0, gin.Request_Header c0 = gin.Request_Header c ->
                     gate c_Next c0 = rejected c0) ->
  served gate c = [(gin.StatusUnauthorized, auth.unauthorized)].
Proof.
  intros H. unfold served.
  rewrite handleHTTPRequest_rejected by (intros; now apply H). reflexivity.
Qed.

Lemma admits_exact_header (r : string) (c c' : gin.Context) :
  gin.Request_Header c' = gin.Request_Header c ->
  admits_exact r c -> admits_exact r c'.
Proof.
  intros H (role & Hv & Hr). exists role.
  now rewrite (VerifyToken_header c' c H).
Qed.

Lemma admits_user_or_admin_header (c c' : gin.Context) :
  gin.Request_Header c' = gin.Request_Header c ->
  admits_user_or_admin c -> admits_user_or_admin c'.
Proof.
  intros H (role & Hv & Hr). exists role.
  now rewrite (VerifyToken_header c' c H).
Qed.

End AuthFacts.

Section AuthClaims.


(** C4. The role-exact gate hands the request on exactly when token
    verification succeeds with the required role, and the user-or-admin
    gate exactly when it succeeds with role ["user"] or ["admin"]: an
    admitted request reaches the guarded operation with its context
    untouched; any other request gets the unauthorized response and the
    chain is aborted, so that no pending handler runs, whatever it is.
    Verification succeeds with a role exactly when the extracted token
    is correctly signed (three segments that decode, an HMAC method,
    valid claims, a signature that verifies under the server's key) and
    carries that role as its role claim; so each gate serves a request
    if and only if its token is such a token with an allowed role, and a
    token that is forged, expired, signed by another method or without a
    string role is refused.
    In particular a correctly signed token with role ["admin"] passes the
    admin-only gate, and one with role ["user"] is rejected by the
    admin-only gate and passes the user-or-admin gate. *)
Theorem C4_role_gates {L : jwt.Lib} (requiredRole : string) (c : gin.Context) :
  (admits_exact requiredRole c ->
     (forall c_Next, auth.AuthMiddleware requiredRole c_Next c = c_Next c)
     /\ served (auth.AuthMiddleware requiredRole) c = [(200, [("status", "ok")])])
  /\ (~ admits_exact requiredRole c ->
     (forall c_Next, auth.AuthMiddleware requiredRole c_Next c = rejected c)
     /\ (forall guarded,
           gin.handleHTTPRequest [auth.AuthMiddleware requiredRole; guarded] c
           = gin.mkContext (gin.Request_Header c) 64
               (gin.Writer c ++ [(401, [("error", "Unauthorized")])])%list)
     /\ served (auth.AuthMiddleware requiredRole) c
        = [(401, [("error", "Unauthorized")])])
  /\ (admits_user_or_admin c ->
     (forall c_Next, auth.IsUserOrAdmin c_Next c = c_Next c)
     /\ served auth.IsUserOrAdmin c = [(200, [("status", "ok")])])
  /\ (~ admits_user_or_admin c ->
     (forall c_Next, auth.IsUserOrAdmin c_Next c = rejected c)
     /\ (forall guarded,
           gin.handleHTTPRequest [auth.IsUserOrAdmin; guarded] c
           = gin.mkContext (gin.Request_Header c) 64
               (gin.Writer c ++ [(401, [("error", "Unauthorized")])])%list)
     /\ served auth.IsUserOrAdmin c = [(401, [("error", "Unauthorized")])])
  /\ (forall t,
        gin.GetHeader c "Authorization" = "Bearer " ++ t ->
        no_space t ->
        (correctly_signed t "admin" ->
           admits_exact "admin" c /\ admits_user_or_admin c)
        /\ (correctly_signed t "user" ->
           ~ admits_exact "admin" c /\ admits_user_or_admin c))
  /\ (forall role,
        auth.VerifyToken c = (role, None)
        <-> correctly_signed (auth.ExtractToken c) role)
  /\ (admits_exact requiredRole c
      <-> correctly_signed (auth.ExtractToken c) requiredRole)
  /\ (admits_user_or_admin c
      <-> (correctly_signed (auth.ExtractToken c) "user"
           \/ correctly_signed (auth.ExtractToken c) "admin"))
  /\ (served (auth.AuthMiddleware requiredRole) c = [(200, [("status", "ok")])]
      <-> correctly_signed (auth.ExtractToken c) requiredRole)
  /\ (served auth.IsUserOrAdmin c = [(200, [("status", "ok")])]
      <-> (correctly_signed (auth.ExtractToken c) "user"
           \/ correctly_signed (auth.ExtractToken c) "admin")).
Proof.
  assert (ExactYes : forall c0, admits_exact requiredRole c0 ->
            forall c_Next, auth.AuthMiddleware requiredRole c_Next c0 = c_Next c0).
  { intros c0 Ha c_Next.
    destruct (AuthMiddleware_eq requiredRole c_Next c0) as [[_ H]|[Hn _]];
      [exact H | contradiction]. }
  assert (ExactNo : forall c0, ~ admits_exact requiredRole c0 ->
            forall c_Next, auth.AuthMiddleware requiredRole c_Next c0 = rejected c0).
  { intros c0 Hn c_Next.
    destruct (AuthMiddleware_eq requiredRole c_Next c0) as [[Ha _]|[_ H]];
      [contradiction | exact H]. }
  assert (EitherYes : forall c0, admits_user_or_admin c0 ->
            forall c_Next, auth.IsUserOrAdmin c_Next c0 = c_Next c0).
  { intros c0 Ha c_Next.
    destruct (IsUserOrAdmin_eq c_Next c0) as [[_ H]|[Hn _]];
      [exact H | contradiction]. }
  assert (EitherNo : forall c0, ~ admits_user_or_admin c0 ->
            forall c_Next, auth.IsUserOrAdmin c_Next c0 = rejected c0).
  { intros c0 Hn c_Next.
    destruct (IsUserOrAdmin_eq c_Next c0) as [[Ha _]|[_ H]];
      [contradiction | exact H]. }
  assert (ExactIff : admits_exact requiredRole c
                     <-> correctly_signed (auth.ExtractToken c) requiredRole).
  { split.
    - intros (role & Hv & <-). now apply VerifyToken_iff.
    - intros Hs. exists requiredRole. split; [now apply VerifyToken_iff | reflexivity]. }
  assert (EitherIff : admits_user_or_admin c
                      <-> (correctly_signed (auth.ExtractToken c) "user"
                           \/ correctly_signed (auth.ExtractToken c) "admin")).
  { split.
    - intros (role & Hv & [-> | ->]); [left | right]; now apply VerifyToken_iff.
    - intros [Hs|Hs]; [exists "user" | exists "admin"];
        (split; [now apply VerifyToken_iff | now auto]). }
  assert (ServedExact :
            (admits_exact requiredRole c
             /\ served (auth.AuthMiddleware requiredRole) c
                = [(200, [("status", "ok")])])
            \/ (~ admits_exact requiredRole c
                /\ served (auth.AuthMiddleware requiredRole) c
                   = [(401, [("error", "Unauthorized")])])).
  { destruct (AuthMiddleware_eq requiredRole (fun x => x) c) as [[Ha _]|[Hn _]];
      [left | right]; (split; [assumption|]).
    - apply served_admitted. intros c_Next c0 Hh.
      apply ExactYes. now apply (admits_exact_header _ c).
    - apply served_rejected. intros c_Next c0 Hh. apply ExactNo.
      intros Ha. apply Hn. now apply (admits_exact_header _ c0). }
  assert (ServedEither :
            (admits_user_or_admin c
             /\ served auth.IsUserOrAdmin c = [(200, [("status", "ok")])])
            \/ (~ admits_user_or_admin c
                /\ served auth.IsUserOrAdmin c
                   = [(401, [("error", "Unauthorized")])])).
  { destruct (IsUserOrAdmin_eq (fun x => x) c) as [[Ha _]|[Hn _]];
      [left | right]; (split; [assumption|]).
    - apply served_admitted. intros c_Next c0 Hh.
      apply EitherYes. now apply (admits_user_or_admin_header c).
    - apply served_rejected. intros c_Next c0 Hh. apply EitherNo.
      intros Ha. apply Hn. now apply (admits_user_or_admin_header c0). }
  split; [|split; [|split; [|split; [|split; [|split; [|split; [|split; [|split]]]]]]]].
  - intros Ha. split; [now apply ExactYes|].
    apply served_admitted. intros c_Next c0 Hh.
    apply ExactYes. now apply (admits_exact_header _ c).
  - intros Hn.
    assert (R : forall c_Next c0, gin.Request_Header c0 = gin.Request_Header c ->
                  auth.AuthMiddleware requiredRole c_Next c0 = rejected c0).
    { intros c_Next c0 Hh. apply ExactNo. intros Ha. apply Hn.
      now apply (admits_exact_header _ c0). }
    split; [now apply ExactNo|]. split.
    + intros guarded. now apply handleHTTPRequest_rejected.
    + now apply served_rejected.
  - intros Ha. split; [now apply EitherYes|].
    apply served_admitted. intros c_Next c0 Hh.
    apply EitherYes. now apply (admits_user_or_admin_header c).
  - intros Hn.
    assert (R : forall c_Next c0, gin.Request_Header c0 = gin.Request_Header c ->
                  auth.IsUserOrAdmin c_Next c0 = rejected c0).
    { intros c_Next c0 Hh. apply EitherNo. intros Ha. apply Hn.
      now apply (admits_user_or_admin_header c0). }
    split; [now apply EitherNo|]. split.
    + intros guarded. now apply handleHTTPRequest_rejected.
    + now apply served_rejected.
  - intros t Hh Ht.
    pose proof (ExtractToken_bearer c t Hh Ht) as Hx.
    split; intros Hs; pose proof (VerifyToken_correctly_signed c t _ Hx Hs) as Hv.
    + split; [now exists "admin" | exists "admin"; now auto].
    + split; [|exists "user"; now auto].
      intros (role & Hr & ->). rewrite Hv in Hr. discriminate Hr.
  - intros role. apply VerifyToken_iff.
  - exact ExactIff.
  - exact EitherIff.
  - rewrite <- ExactIff.
    destruct ServedExact as [[Ha ->]|[Hn ->]]; split; auto;
      [discriminate | contradiction].
  - rewrite <- EitherIff.
    destruct ServedEither as [[Ha ->]|[Hn ->]]; split; auto;
      [discriminate | contradiction].
Qed.

(** C4 on the stand-in tokens: the admin token is served by the
    admin-only gate, the user token is refused by it and served by the
    user-or-admin gate; a token with the role ["admin"] and a made-up
    signature is not correctly signed and is refused. *)
Lemma C4_role_gates_witness :
  served (auth.AuthMiddleware (L := demo.jwtLib) "admin")
    (request ("Bearer " ++ admin_token)) = [(200, [("status", "ok")])]
  /\ served (auth.AuthMiddleware (L := demo.jwtLib) "admin")
       (request ("Bearer " ++ user_token)) = [(401, [("error", "Unauthorized")])]
  /\ served (auth.IsUserOrAdmin (L := demo.jwtLib))
       (request ("Bearer " ++ user_token)) = [(200, [("status", "ok")])]
  /\ ~ correctly_signed (L := demo.jwtLib) "HS256.admin.forged" "admin"
  /\ served (auth.AuthMiddleware (L := demo.jwtLib) "admin")
       (request "Bearer HS256.admin.forged") = [(401, [("error", "Unauthorized")])].
Proof.
  assert (Sa : correctly_signed (L := demo.jwtLib) admin_token "admin").
  { split; [reflexivity|].
    eexists _, _, "HS256".
    split; [reflexivity|]. repeat split; vm_compute; reflexivity. }
  assert (Su : correctly_signed (L := demo.jwtLib) user_token "user").
  { split; [reflexivity|].
    eexists _, _, "HS256".
    split; [reflexivity|]. repeat split; vm_compute; reflexivity. }
  destruct (C4_role_gates (L := demo.jwtLib) "admin"
              (request ("Bearer " ++ admin_token)))
    as (Yes & _ & _ & _ & Inst & _).
  destruct (Inst admin_token eq_refl eq_refl) as (Ia & _).
  destruct (C4_role_gates (L := demo.jwtLib) "admin"
              (request ("Bearer " ++ user_token)))
    as (_ & No & UYes & _ & UInst & _).
  destruct (UInst user_token eq_refl eq_refl) as (_ & Iu).
  destruct (C4_role_gates (L := demo.jwtLib) "admin"
              (request "Bearer HS256.admin.forged"))
    as (_ & _ & _ & _ & _ & _ & _ & _ & Served & _).
  assert (F : served (auth.AuthMiddleware (L := demo.jwtLib) "admin")
                (request "Bearer HS256.admin.forged")
              = [(401, [("error", "Unauthorized")])])
    by (vm_compute; reflexivity).
  split; [exact (proj2 (Yes (proj1 (Ia Sa))))|].
  split; [exact (proj2 (proj2 (No (proj1 (Iu Su))))) |].
  split; [exact (proj2 (UYes (proj2 (Iu Su))))|].
  split; [|exact F].
  intros Hs. apply (proj2 Served) in Hs. rewrite F in Hs. discriminate Hs.
Defined.

(** C5. Token extraction splits the [Authorization] header at spaces.
    There is always at least one segment.  With exactly two segments the
    second is returned; with any other number the empty string is.  On
    the empty string verification fails. *)
Theorem C5_extract_token {L : jwt.Lib} (c : gin.Context) :
  let parts := strings_Split (gin.GetHeader c "Authorization") " "%char in
  (1 <= length parts)%nat
  /\ (forall first second,
        parts = [first; second] -> auth.ExtractToken c = second)
  /\ (length parts <> 2%nat -> auth.ExtractToken c = "")
  /\ (auth.ExtractToken c = "" ->
        exists err, auth.VerifyToken c = ("", Some err)).
Proof.
  intros parts. split; [|split; [|split]].
  - pose proof (strings_Split_nonempty (gin.GetHeader c "Authorization") " ") as H.
    fold parts in H. destruct parts; [contradiction | cbn; lia].
  - intros first second H. rewrite ExtractToken_eq. fold parts. now rewrite H.
  - intros H. rewrite ExtractToken_eq. fold parts.
    destruct parts as [|a [|b [|x l]]]; try reflexivity. now contradiction H.
  - intros H. eexists. now apply VerifyToken_empty.
Qed.

(** C5 on a well-formed header, on headers of one and of three segments,
    and on a request without the header. *)
Lemma C5_extract_token_witness :
  auth.ExtractToken (request "Bearer abc.def.ghi") = "abc.def.ghi"
  /\ auth.ExtractToken (request "Bearer") = ""
  /\ auth.ExtractToken (request "Bearer abc def") = ""
  /\ auth.ExtractToken bare_request = ""
  /\ exists err, auth.VerifyToken (L := demo.jwtLib) bare_request = ("", Some err).
Proof.
  destruct (C5_extract_token (L := demo.jwtLib) (request "Bearer abc.def.ghi"))
    as (_ & Two & _ & _).
  destruct (C5_extract_token (L := demo.jwtLib) (request "Bearer"))
    as (_ & _ & One & _).
  destruct (C5_extract_token (L := demo.jwtLib) (request "Bearer abc def"))
    as (_ & _ & Three & _).
  destruct (C5_extract_token (L := demo.jwtLib) bare_request)
    as (_ & _ & None_ & Fails).
  split; [exact (Two "Bearer" "abc.def.ghi" eq_refl)|].
  split; [apply One; vm_compute; discriminate|].
  split; [apply Three; vm_compute; discriminate|].
  assert (E : auth.ExtractToken bare_request = "")
    by (apply None_; vm_compute; discriminate).
  split; [exact E | exact (Fails E)].
Defined.

End AuthClaims.

(* ===================================================================== *)
(** * Part IV: further properties of the same code                        *)
(* ===================================================================== *)

(** ** Splitting, and what token extraction accepts *)

Section SplitFacts.

Lemma strings_Split_length (s : string) (sep : ascii) :
  length (strings_Split s sep) = S (count_char sep s).
Proof.
  induction s as [|c s IH]; [reflexivity|].
  cbn [strings_Split count_char].
  destruct (Ascii.eqb c sep); cbn [length Nat.add].
  - now rewrite IH.
  - destruct (strings_Split s sep) as [|p ps] eqn:E; [discriminate IH|].
    exact IH.
Qed.

Lemma strings_Join_cons_char (c : ascii) (p : string) (ps : list string)
    (sep : string) :
  strings_Join (String c p :: ps) sep = String c (strings_Join (p :: ps) sep).
Proof. destruct ps; reflexivity. Qed.

Lemma strings_Join_cons_empty (p : string) (ps : list string) (sep : ascii) :
  strings_Join ("" :: p :: ps) (String sep "")
  = String sep (strings_Join (p :: ps) (String sep "")).
Proof. reflexivity. Qed.

(** Joining the pieces with the separator gives the string back. *)
Lemma strings_Join_Split (s : string) (sep : ascii) :
  strings_Join (strings_Split s sep) (String sep "") = s.
Proof.
  induction s as [|c s IH]; [reflexivity|].
  cbn [strings_Split].
  destruct (Ascii.eqb c sep) eqn:E.
  - apply Ascii.eqb_eq in E. subst c.
    destruct (strings_Split s sep) as [|p ps] eqn:F.
    + now destruct (strings_Split_nonempty s sep).
    + now rewrite strings_Join_cons_empty, IH.
  - destruct (strings_Split s sep) as [|p ps] eqn:F.
    + now destruct (strings_Split_nonempty s sep).
    + now rewrite strings_Join_cons_char, IH.
Qed.

(** No piece contains the separator. *)
Lemma strings_Split_pieces (s : string) (sep : ascii) :
  Forall (no_char sep) (strings_Split s sep).
Proof.
  induction s as [|c s IH]; [now repeat constructor|].
  cbn [strings_Split].
  destruct (Ascii.eqb c sep) eqn:E.
  - constructor; [reflexivity | exact IH].
  - destruct (strings_Split s sep) as [|p ps].
    + constructor; [|constructor].
      unfold no_char. cbn [list_ascii_of_string forallb]. now rewrite E.
    + inversion IH as [|? ? Hp Hps]; subst. constructor; [|exact Hps].
      unfold no_char in *. cbn [list_ascii_of_string forallb].
      now rewrite E, Hp.
Qed.

Lemma no_space_no_char (s : string) : no_space s <-> no_char " " s.
Proof. reflexivity. Qed.

End SplitFacts.

Section ExtractTokenMore.

(** X1. Token extraction does not look at the scheme word: whatever
    stands before the single space of the header, be it [Bearer],
    [Basic] or nothing at all, the part after the space is the token. *)
Theorem X1_extract_ignores_scheme (c : gin.Context) (scheme token : string) :
  gin.GetHeader c "Authorization" = scheme ++ " " ++ token ->
  no_space scheme ->
  no_space token ->
  auth.ExtractToken c = token.
Proof.
  intros H Hs Ht. rewrite ExtractToken_eq, H.
  change (scheme ++ " " ++ token) with (scheme ++ String " " token).
  rewrite (strings_Split_app _ _ _ Hs).
  now rewrite (strings_Split_none _ _ Ht).
Qed.

(** X1 on a [Basic] header and on a header that starts with the space. *)
Lemma X1_extract_ignores_scheme_witness :
  auth.ExtractToken (request "Basic dXNlcjpwYXNz") = "dXNlcjpwYXNz"
  /\ auth.ExtractToken (request " abc") = "abc".
Proof.
  split.
  - apply (X1_extract_ignores_scheme (request "Basic dXNlcjpwYXNz")
             "Basic" "dXNlcjpwYXNz"); reflexivity.
  - apply (X1_extract_ignores_scheme (request " abc") "" "abc"); reflexivity.
Defined.

(** X2. What token extraction returns is decided by the number of spaces
    in the header.  With exactly one space the header is the text before
    the space, the space, and the extracted token, and neither part
    contains a space.  With none, or with two or more (a doubled or a
    trailing space included), the token is empty. *)
Theorem X2_extract_by_spaces (c : gin.Context) :
  let h := gin.GetHeader c "Authorization" in
  (count_char " " h = 1%nat ->
     exists scheme,
       h = scheme ++ " " ++ auth.ExtractToken c
       /\ no_space scheme /\ no_space (auth.ExtractToken c))
  /\ (count_char " " h <> 1%nat -> auth.ExtractToken c = "").
Proof.
  intros h.
  pose proof (strings_Split_length h " ") as Hl.
  pose proof (strings_Join_Split h " ") as Hj.
  pose proof (strings_Split_pieces h " ") as Hp.
  rewrite ExtractToken_eq. fold h.
  destruct (strings_Split h " ") as [|a [|b [|x l]]]; cbn [length] in Hl.
  - discriminate Hl.
  - split; [intros H; rewrite H in Hl; discriminate Hl | reflexivity].
  - split; [|intros H; contradiction H; now injection Hl].
    intros _. exists a. cbn [strings_Join] in Hj.
    inversion Hp as [|? ? Ha Hb']; subst. inversion Hb' as [|? ? Hb _]; subst.
    split; [now rewrite Hj | split; assumption].
  - split; [intros H; rewrite H in Hl; discriminate Hl | reflexivity].
Qed.

(** X2 on a doubled space, a trailing space after a token, and a lone
    scheme. *)
Lemma X2_extract_by_spaces_witness :
  auth.ExtractToken (request "Bearer  abc") = ""
  /\ auth.ExtractToken (request "Bearer abc ") = ""
  /\ auth.ExtractToken (request "Bearer") = "".
Proof.
  split; [|split].
  - apply (proj2 (X2_extract_by_spaces (request "Bearer  abc"))).
    vm_compute. discriminate.
  - apply (proj2 (X2_extract_by_spaces (request "Bearer abc "))).
    vm_compute. discriminate.
  - apply (proj2 (X2_extract_by_spaces (request "Bearer"))).
    vm_compute. discriminate.
Defined.

End ExtractTokenMore.

(** ** Verification and the gates, further *)

Section GatesMore.

Context {L : jwt.Lib}.

(** A failed verification is rejected by both gates, whatever role is
    required. *)
Lemma gates_reject_error (c : gin.Context) (role : string) (e : error) :
  auth.VerifyToken c = (role, Some e) ->
  forall r c_Next,
    auth.AuthMiddleware r c_Next c = rejected c
    /\ auth.IsUserOrAdmin c_Next c = rejected c.
Proof.
  intros H r c_Next. unfold auth.AuthMiddleware, auth.IsUserOrAdmin.
  rewrite H. rewrite bool_decide_true by discriminate. now split.
Qed.

(** The gates at any context with the headers of [c]. *)
Lemma AuthMiddleware_at (r : string) (c c0 : gin.Context)
    (c_Next : gin.Context -> gin.Context) :
  gin.Request_Header c0 = gin.Request_Header c ->
  (admits_exact r c -> auth.AuthMiddleware r c_Next c0 = c_Next c0)
  /\ (~ admits_exact r c -> auth.AuthMiddleware r c_Next c0 = rejected c0).
Proof.
  intros Hh.
  destruct (AuthMiddleware_eq r c_Next c0) as [[Ha E]|[Hn E]]; split; intros H;
    try exact E.
  - contradiction H. now apply (admits_exact_header r c0 c).
  - contradiction Hn. now apply (admits_exact_header r c c0).
Qed.

Lemma IsUserOrAdmin_at (c c0 : gin.Context)
    (c_Next : gin.Context -> gin.Context) :
  gin.Request_Header c0 = gin.Request_Header c ->
  (admits_user_or_admin c -> auth.IsUserOrAdmin c_Next c0 = c_Next c0)
  /\ (~ admits_user_or_admin c -> auth.IsUserOrAdmin c_Next c0 = rejected c0).
Proof.
  intros Hh.
  destruct (IsUserOrAdmin_eq c_Next c0) as [[Ha E]|[Hn E]]; split; intros H;
    try exact E.
  - contradiction H. now apply (admits_user_or_admin_header c0 c).
  - contradiction Hn. now apply (admits_user_or_admin_header c c0).
Qed.

Lemma admits_exact_dec (r : string) (c : gin.Context) :
  admits_exact r c \/ ~ admits_exact r c.
Proof.
  destruct (AuthMiddleware_eq r (fun x => x) c) as [[H _]|[H _]]; auto.
Qed.

Lemma admits_user_or_admin_dec (c : gin.Context) :
  admits_user_or_admin c \/ ~ admits_user_or_admin c.
Proof.
  destruct (IsUserOrAdmin_eq (fun x => x) c) as [[H _]|[H _]]; auto.
Qed.

Lemma served_AuthMiddleware (r : string) (c : gin.Context) :
  (admits_exact r c
   /\ served (auth.AuthMiddleware r) c = [(200, [("status", "ok")])])
  \/ (~ admits_exact r c
      /\ served (auth.AuthMiddleware r) c = [(401, [("error", "Unauthorized")])]).
Proof.
  destruct (admits_exact_dec r c) as [H|H]; [left | right]; (split; [exact H|]).
  - apply served_admitted. intros n c0 Hh.
    now apply (proj1 (AuthMiddleware_at r c c0 n Hh)).
  - apply served_rejected. intros n c0 Hh.
    now apply (proj2 (AuthMiddleware_at r c c0 n Hh)).
Qed.

Lemma served_IsUserOrAdmin (c : gin.Context) :
  (admits_user_or_admin c
   /\ served auth.IsUserOrAdmin c = [(200, [("status", "ok")])])
  \/ (~ admits_user_or_admin c
      /\ served auth.IsUserOrAdmin c = [(401, [("error", "Unauthorized")])]).
Proof.
  destruct (admits_user_or_admin_dec c) as [H|H]; [left | right];
    (split; [exact H|]).
  - apply served_admitted. intros n c0 Hh.
    now apply (proj1 (IsUserOrAdmin_at c c0 n Hh)).
  - apply served_rejected. intros n c0 Hh.
    now apply (proj2 (IsUserOrAdmin_at c c0 n Hh)).
Qed.

(** X3. A token whose header names a signing method outside the HMAC
    family is refused by the key function: verification fails with
    "invalid signing method" before claims or signature are looked at, so
    whatever the library would say of them, and both gates reject the
    request. *)
Theorem X3_non_hmac_rejected (c : gin.Context) (token : jwt.Token) :
  let parts := strings_Split (auth.ExtractToken c) "."%char in
  length parts = 3%nat ->
  jwt.decodeSegments parts = inl token ->
  (forall alg, jwt.Method token <> jwt.SigningMethodHMAC alg) ->
  auth.VerifyToken c = ("", Some "invalid signing method")
  /\ forall r c_Next,
       auth.AuthMiddleware r c_Next c = rejected c
       /\ auth.IsUserOrAdmin c_Next c = rejected c.
Proof.
  intros parts Hlen Hd Hm.
  assert (V : auth.VerifyToken c = ("", Some "invalid signing method")).
  { unfold auth.VerifyToken, jwt.Parse. fold parts. rewrite Hlen, Hd.
    cbn [Nat.eqb negb]. unfold auth.keyFunc.
    destruct (jwt.Method token) as [alg| | | |]; try reflexivity.
    now contradiction (Hm alg). }
  split; [exact V | exact (gates_reject_error _ _ _ V)].
Qed.

(** X4. A token without a role claim, or with one that is not a string,
    never verifies: when everything else about it is in order the error
    is "invalid role"; both gates reject the request. *)
Theorem X4_role_must_be_string (c : gin.Context) (token : jwt.Token)
    (claims : gmap string jwt.Value) :
  let parts := strings_Split (auth.ExtractToken c) "."%char in
  length parts = 3%nat ->
  jwt.decodeSegments parts = inl token ->
  jwt.Claims_ token = jwt.MapClaims claims ->
  (forall role, claims !! "role" <> Some (jwt.VString role)) ->
  (exists err, auth.VerifyToken c = ("", Some err))
  /\ ((exists alg, jwt.Method token = jwt.SigningMethodHMAC alg) ->
      jwt.claimsValid (jwt.Claims_ token) = None ->
      jwt.Verify (jwt.Method token) (strings_Join (firstn 2 parts) ".")
        (nth 2 parts "") auth.jwtKey = None ->
      auth.VerifyToken c = ("", Some "invalid role"))
  /\ forall r c_Next,
       auth.AuthMiddleware r c_Next c = rejected c
       /\ auth.IsUserOrAdmin c_Next c = rejected c.
Proof.
  intros parts Hlen Hd Hc Hr.
  assert (E : auth.VerifyToken c
              = match jwt.Method token with
                | jwt.SigningMethodHMAC _ =>
                    match jwt.claimsValid (jwt.Claims_ token),
                          jwt.Verify (jwt.Method token)
                            (strings_Join (firstn 2 parts) ".")
                            (nth 2 parts "") auth.jwtKey with
                    | None, None => ("", Some "invalid role")
                    | Some e, _ => ("", Some e)
                    | None, Some e => ("", Some e)
                    end
                | _ => ("", Some "invalid signing method")
                end).
  { unfold auth.VerifyToken, jwt.Parse. fold parts. rewrite Hlen, Hd.
    cbn [Nat.eqb negb]. unfold auth.keyFunc.
    destruct (jwt.Method token) as [alg| | | |] eqn:Hm; try reflexivity.
    cbn [jwt.Raw jwt.Method jwt.Claims_ jwt.Signature jwt.Valid].
    destruct (jwt.claimsValid (jwt.Claims_ token)) as [e|]; [reflexivity|].
    destruct (jwt.Verify _ _ _ auth.jwtKey) as [e|]; [reflexivity|].
    cbn [jwt.Raw jwt.Method jwt.Claims_ jwt.Signature jwt.Valid negb].
    rewrite Hc.
    destruct (claims !! "role") as [[| | |role|]|] eqn:R; try reflexivity.
    now contradiction (Hr role). }
  assert (F : exists err, auth.VerifyToken c = ("", Some err)).
  { rewrite E. destruct (jwt.Method token); eauto.
    destruct (jwt.claimsValid _); eauto.
    destruct (jwt.Verify _ _ _ _); eauto. }
  split; [exact F|]. split.
  - intros [alg Hm] Hv Hs. rewrite E. rewrite Hm in *. now rewrite Hv, Hs.
  - destruct F as [err V]. exact (gates_reject_error _ _ _ V).
Qed.

(** X5. For a correctly signed bearer token the role claim alone decides:
    the role-exact gate serves the request when the claim equals the
    required role and refuses it otherwise (there is no ranking of roles:
    an admin token does not pass a gate that requires ["user"]), and the
    user-or-admin gate serves it exactly for the roles ["user"] and
    ["admin"]. *)
Theorem X5_role_alone_decides (c : gin.Context) (t role r : string) :
  gin.GetHeader c "Authorization" = "Bearer " ++ t ->
  no_space t ->
  correctly_signed t role ->
  served (auth.AuthMiddleware r) c
  = (if String.eqb role r then [(200, [("status", "ok")])]
     else [(401, [("error", "Unauthorized")])])
  /\ served auth.IsUserOrAdmin c
     = (if String.eqb role "user" || String.eqb role "admin"
        then [(200, [("status", "ok")])]
        else [(401, [("error", "Unauthorized")])]).
Proof.
  intros Hh Ht Hs.
  pose proof (VerifyToken_correctly_signed c t role
                (ExtractToken_bearer c t Hh Ht) Hs) as V.
  split.
  - destruct (served_AuthMiddleware r c) as [[(ro & Hv & Hr) ->]|[Hn ->]].
    + rewrite V in Hv. injection Hv as <-. subst r. now rewrite String.eqb_refl.
    + destruct (String.eqb role r) eqn:E; [|reflexivity].
      apply String.eqb_eq in E. contradiction Hn. now exists role.
  - destruct (served_IsUserOrAdmin c) as [[(ro & Hv & Hr) ->]|[Hn ->]].
    + rewrite V in Hv. injection Hv as <-.
      destruct Hr as [-> | ->]; reflexivity.
    + destruct (String.eqb role "user") eqn:E1.
      { apply String.eqb_eq in E1. contradiction Hn. exists role. auto. }
      destruct (String.eqb role "admin") eqn:E2; [|reflexivity].
      apply String.eqb_eq in E2. contradiction Hn. exists role. auto.
Qed.

(** X6. The user-or-admin gate serves a request exactly when one of the
    two role-exact gates, for ["user"] or for ["admin"], would. *)
Theorem X6_either_gate_is_union (c : gin.Context) :
  served auth.IsUserOrAdmin c = [(200, [("status", "ok")])]
  <-> (served (auth.AuthMiddleware "user") c = [(200, [("status", "ok")])]
       \/ served (auth.AuthMiddleware "admin") c = [(200, [("status", "ok")])]).
Proof.
  destruct (served_IsUserOrAdmin c) as [[Ha ->]|[Hn ->]];
    destruct (served_AuthMiddleware "user" c) as [[Hu ->]|[Hu ->]];
    destruct (served_AuthMiddleware "admin" c) as [[Had ->]|[Had ->]];
    split; intros H; auto; try discriminate H;
    try (destruct H as [H|H]; discriminate H).
  - destruct Ha as (role & Hv & [-> | ->]);
      [contradiction Hu | contradiction Had]; eexists; eauto.
  - contradiction Hn. destruct Hu as (role & Hv & ->). exists "user". auto.
  - contradiction Hn. destruct Hu as (role & Hv & ->). exists "user". auto.
  - contradiction Hn. destruct Had as (role & Hv & ->). exists "admin". auto.
Qed.

(** X7. Two role-exact gates in a row before a final handler: the handler
    answers only when the token's role is both required roles, nothing
    but its answer is written then; in every other case exactly one
    unauthorized response is written and the handler does not run.  So
    two gates for different roles let nothing through. *)
Theorem X7_stacked_gates (r1 r2 : string) (c : gin.Context)
    (code : Z) (body : gin.H) :
  let out := gin.Writer
               (gin.handleHTTPRequest
                  [auth.AuthMiddleware r1; auth.AuthMiddleware r2;
                   respond code body] c) in
  (admits_exact r1 c /\ admits_exact r2 c ->
     out = (gin.Writer c ++ [(code, body)])%list)
  /\ (~ (admits_exact r1 c /\ admits_exact r2 c) ->
     out = (gin.Writer c ++ [(401, [("error", "Unauthorized")])])%list)
  /\ (r1 <> r2 ->
     out = (gin.Writer c ++ [(401, [("error", "Unauthorized")])])%list).
Proof.
  intros out.
  set (c0 := gin.mkContext (gin.Request_Header c) 0 (gin.Writer c)).
  set (c1 := gin.mkContext (gin.Request_Header c) 1 (gin.Writer c)).
  assert (Both : admits_exact r1 c -> admits_exact r2 c ->
                 out = (gin.Writer c ++ [(code, body)])%list).
  { intros H1 H2. unfold out, gin.handleHTTPRequest. cbn [gin.Next].
    cbn [gin.Request_Header gin.index gin.Writer Z.add Z.opp Z.pos_sub].
    fold c0.
    rewrite (proj1 (AuthMiddleware_at r1 c c0 _ eq_refl) H1).
    cbn [gin.Next gin.Request_Header gin.index gin.Writer c0 Z.add Pos.add].
    fold c1.
    rewrite (proj1 (AuthMiddleware_at r2 c c1 _ eq_refl) H2).
    reflexivity. }
  assert (First : ~ admits_exact r1 c ->
                  out = (gin.Writer c ++ [(401, [("error", "Unauthorized")])])%list).
  { intros H1. unfold out, gin.handleHTTPRequest. cbn [gin.Next].
    cbn [gin.Request_Header gin.index gin.Writer Z.add Z.opp Z.pos_sub].
    fold c0.
    rewrite (proj2 (AuthMiddleware_at r1 c c0 _ eq_refl) H1).
    reflexivity. }
  assert (Second : admits_exact r1 c -> ~ admits_exact r2 c ->
                   out = (gin.Writer c ++ [(401, [("error", "Unauthorized")])])%list).
  { intros H1 H2. unfold out, gin.handleHTTPRequest. cbn [gin.Next].
    cbn [gin.Request_Header gin.index gin.Writer Z.add Z.opp Z.pos_sub].
    fold c0.
    rewrite (proj1 (AuthMiddleware_at r1 c c0 _ eq_refl) H1).
    cbn [gin.Next gin.Request_Header gin.index gin.Writer c0 Z.add Pos.add].
    fold c1.
    rewrite (proj2 (AuthMiddleware_at r2 c c1 _ eq_refl) H2).
    reflexivity. }
  split; [now intros [H1 H2]; apply Both|].
  assert (Not : ~ (admits_exact r1 c /\ admits_exact r2 c) ->
                out = (gin.Writer c ++ [(401, [("error", "Unauthorized")])])%list).
  { intros Hn. destruct (admits_exact_dec r1 c) as [H1|H1]; [|now apply First].
    destruct (admits_exact_dec r2 c) as [H2|H2]; [|now apply Second].
    contradiction Hn. now split. }
  split; [exact Not|].
  intros Hne. apply Not. intros [(ro1 & V1 & E1) (ro2 & V2 & E2)].
  rewrite V1 in V2. injection V2 as <-. congruence.
Qed.

End GatesMore.

Section GatesMoreInstances.

(** X3 on an unsigned token that claims the role ["admin"], with a
    library that would accept its signature. *)
Lemma X3_non_hmac_rejected_witness :
  auth.VerifyToken (L := unsigned_lib) (request "Bearer e30.e30.")
  = ("", Some "invalid signing method")
  /\ forall c_Next,
       auth.AuthMiddleware (L := unsigned_lib) "admin" c_Next
         (request "Bearer e30.e30.")
       = rejected (request "Bearer e30.e30.").
Proof.
  destruct (X3_non_hmac_rejected (L := unsigned_lib) (request "Bearer e30.e30.")
              (jwt.mkToken "e30.e30." jwt.SigningMethodNone
                 (jwt.MapClaims {[ "role" := jwt.VString "admin" ]}) "" false)
              eq_refl eq_refl) as (V & G).
  - intros alg. discriminate.
  - split; [exact V|]. intros c_Next. exact (proj1 (G "admin" c_Next)).
Defined.

(** X4 on a token whose role claim is a number. *)
Lemma X4_role_must_be_string_witness :
  auth.VerifyToken (L := numeric_role_lib) (request "Bearer a.b.c")
  = ("", Some "invalid role").
Proof.
  destruct (X4_role_must_be_string (L := numeric_role_lib)
              (request "Bearer a.b.c")
              (jwt.mkToken "a.b.c" (jwt.SigningMethodHMAC "HS256")
                 (jwt.MapClaims {[ "role" := jwt.VFloat64 1 ]}) "" false)
              {[ "role" := jwt.VFloat64 1 ]}
              eq_refl eq_refl eq_refl) as (_ & V & _).
  - intros role. vm_compute. discriminate.
  - apply V; [now exists "HS256" | reflexivity | reflexivity].
Defined.

Lemma admin_token_signed : correctly_signed (L := demo.jwtLib) admin_token "admin".
Proof.
  split; [reflexivity|]. eexists _, _, "HS256".
  split; [reflexivity|]. repeat split; vm_compute; reflexivity.
Qed.

(** X5 on the admin token: refused where ["user"] is required, served by
    the user-or-admin gate. *)
Lemma X5_role_alone_decides_witness :
  served (auth.AuthMiddleware (L := demo.jwtLib) "user")
    (request ("Bearer " ++ admin_token)) = [(401, [("error", "Unauthorized")])]
  /\ served (auth.IsUserOrAdmin (L := demo.jwtLib))
       (request ("Bearer " ++ admin_token)) = [(200, [("status", "ok")])].
Proof.
  exact (X5_role_alone_decides (L := demo.jwtLib)
           (request ("Bearer " ++ admin_token)) admin_token "admin" "user"
           eq_refl eq_refl admin_token_signed).
Defined.

(** X7 on the admin token before an admin gate followed by a user gate. *)
Lemma X7_stacked_gates_witness :
  gin.Writer
    (gin.handleHTTPRequest
       [auth.AuthMiddleware (L := demo.jwtLib) "admin";
        auth.AuthMiddleware (L := demo.jwtLib) "user";
        respond 200 [("status", "ok")]]
       (request ("Bearer " ++ admin_token)))
  = [(401, [("error", "Unauthorized")])].
Proof.
  apply (X7_stacked_gates (L := demo.jwtLib) "admin" "user"
           (request ("Bearer " ++ admin_token)) 200 [("status", "ok")]).
  discriminate.
Defined.

End GatesMoreInstances.

(** ** The user hooks, further *)

Section UserHooksMore.

Import models.
Context {bc : bcrypt.Lib}.

(** A successful [hashPassword] leaves the plaintext field empty. *)
Lemma hashPassword_clears (u u1 : User) (w w1 : World) :
  hashPassword u w = Returned (u1, None) w1 -> User_Password u1 = "".
Proof.
  destruct (String.eqb (User_Password u) "") eqn:E.
  - apply String.eqb_eq in E. rewrite (hashPassword_empty _ _ E).
    intros H. congruence.
  - apply String.eqb_neq in E. rewrite (hashPassword_nonempty _ _ E).
    destruct (bcrypt.GenerateFromPassword _ _ w) as [[hash [e|]] w0];
      [discriminate|].
    intros H.
    assert (Hu : u1 = set_User_Password "" (set_User_PasswordHash (string_of hash) u))
      by congruence.
    rewrite Hu. apply User_Password_hashed.
Qed.

(** [hashPassword] touches nothing but the two password fields. *)
Lemma hashPassword_frame (u u1 : User) (err : option error) (w w1 : World) :
  hashPassword u w = Returned (u1, err) w1 ->
  u1 = mkUser (User_Base u) (User_Email u) (User_Password u1)
         (User_PasswordHash u1) (User_Name u) (User_Roles u)
         (User_Organizations u) (User_Seats u) (User_Permissions u)
         (User_VerificationCode u) (User_Verified u) (User_ActivityLogs u)
         (User_NotificationPrefs u) (User_Locale u) (User_Timezone u)
         (User_Language u).
Proof.
  destruct (String.eqb (User_Password u) "") eqn:E.
  - apply String.eqb_eq in E. rewrite (hashPassword_empty _ _ E).
    intros H. assert (Hu : u1 = u) by congruence. subst u1. now destruct u.
  - apply String.eqb_neq in E. rewrite (hashPassword_nonempty _ _ E).
    destruct (bcrypt.GenerateFromPassword _ _ w) as [[hash [e|]] w0]; intros H.
    + assert (Hu : u1 = u) by congruence. subst u1. now destruct u.
    + assert (Hu : u1 = set_User_Password ""
                          (set_User_PasswordHash (string_of hash) u))
        by congruence.
      rewrite Hu. now destruct u.
Qed.

(** X8. An update in which [Password] is marked as changed.  With a
    non-empty plaintext the hook hashes as the creation hook does: on
    success the plaintext is cleared and the new hash verifies against
    it, on a hashing error the error is returned and the user is as it
    was; the verification code is never touched.  With an empty
    plaintext nothing changes at all: the old hash stays, so an update
    cannot remove a password. *)
Theorem X8_update_rehashes (u : User) (tx : gorm.DB) (w : World) :
  bcrypt.Lawful bc ->
  gorm.Changed (gorm.DB_Statement tx) "Password" = true ->
  (User_Password u = "" -> User_BeforeUpdate u tx w = Returned (u, None) w)
  /\ (User_Password u <> "" ->
      (forall u' w',
          User_BeforeUpdate u tx w = Returned (u', None) w' ->
          User_Password u' = ""
          /\ bcrypt.CompareHashAndPassword
               (bytes_of (User_PasswordHash u')) (bytes_of (User_Password u)) = None
          /\ User_VerificationCode u' = User_VerificationCode u)
      /\ (forall hash e w1,
          bcrypt.GenerateFromPassword
            (bytes_of (User_Password u)) bcrypt.DefaultCost w = ((hash, Some e), w1) ->
          User_BeforeUpdate u tx w = Returned (u, Some e) w1)
      /\ (forall hash w1,
          bcrypt.GenerateFromPassword
            (bytes_of (User_Password u)) bcrypt.DefaultCost w = ((hash, None), w1) ->
          exists u', User_BeforeUpdate u tx w = Returned (u', None) w1)).
Proof.
  intros Law Hc.
  assert (U : User_BeforeUpdate u tx w
              = match hashPassword u w with
                | Returned (u1, Some e) w1 => Returned (u1, Some e) w1
                | Returned (u1, None) w1 => Returned (u1, None) w1
                | Panicked v w1 => Panicked v w1
                | Exited m w1 => Exited m w1
                end).
  { unfold User_BeforeUpdate. rewrite Hc. unfold bind.
    destruct (hashPassword u w) as [[u1 [e|]] w1| |]; reflexivity. }
  split.
  - intros Hp. now rewrite U, (hashPassword_empty _ _ Hp).
  - intros Hp. rewrite U, (hashPassword_nonempty _ _ Hp).
    split; [|split].
    + intros u' w'.
      destruct (bcrypt.GenerateFromPassword _ _ w) as [[hash [e|]] w1] eqn:G;
        [discriminate|].
      intros H.
      assert (Hu : u' = set_User_Password ""
                          (set_User_PasswordHash (string_of hash) u))
        by congruence.
      rewrite Hu, User_Password_hashed, User_PasswordHash_hashed.
      split; [reflexivity|]. split; [|now destruct u].
      unfold bytes_of at 1. unfold string_of.
      rewrite list_byte_of_string_of_list_byte.
      exact (bcrypt.compare_generated _ _ _ _ _ G).
    + intros hash e w1 G. now rewrite G.
    + intros hash w1 G. rewrite G. eauto.
Qed.

(** X9. Hashing happens once.  After a successful [hashPassword] a second
    one returns the user as it is; so the update hook, run on what the
    creation hook produced, changes nothing, whether or not [Password]
    is marked as changed: a stored hash is never hashed again. *)
Theorem X9_hashing_happens_once (u u' : User) (tx : gorm.DB) (w w' : World) :
  User_BeforeCreate u tx w = Returned (u', None) w' ->
  forall tx2 w2,
    hashPassword u' w2 = Returned (u', None) w2
    /\ User_BeforeUpdate u' tx2 w2 = Returned (u', None) w2.
Proof.
  rewrite User_BeforeCreate_eq.
  destruct (hashPassword u w) as [[u1 [e|]] w1| |] eqn:Hh; try discriminate.
  destruct (entropy w1 (reads w1)) as [fill|e]; [|discriminate].
  intros H tx2 w2.
  assert (Hu : u' = set_User_VerificationCode
                      (base64.EncodeToString base64.URLEncoding (drawn fill)) u1)
    by congruence.
  assert (Hp : User_Password u' = "").
  { rewrite Hu, User_Password_set_code. exact (hashPassword_clears _ _ _ _ Hh). }
  pose proof (hashPassword_empty u' w2 Hp) as E.
  split; [exact E|].
  unfold User_BeforeUpdate.
  destruct (gorm.Changed _ _); [|reflexivity].
  unfold bind. now rewrite E.
Qed.

(** X10. The creation hook writes three fields and no other: whenever it
    returns, everything but [Password], [PasswordHash] and
    [VerificationCode] is as the caller supplied it, the [Verified] flag
    included; and when it returns an error the user is as it was. *)
Theorem X10_create_hook_frame (u u' : User) (err : option error)
    (tx : gorm.DB) (w w' : World) :
  User_BeforeCreate u tx w = Returned (u', err) w' ->
  u' = mkUser (User_Base u) (User_Email u) (User_Password u')
         (User_PasswordHash u') (User_Name u) (User_Roles u)
         (User_Organizations u) (User_Seats u) (User_Permissions u)
         (User_VerificationCode u') (User_Verified u) (User_ActivityLogs u)
         (User_NotificationPrefs u) (User_Locale u) (User_Timezone u)
         (User_Language u)
  /\ (err <> None -> u' = u).
Proof.
  rewrite User_BeforeCreate_eq.
  destruct (hashPassword u w) as [[u1 [e|]] w1| |] eqn:Hh; try discriminate.
  - intros H. assert (Hu : u' = u1) by congruence. subst u1.
    assert (Same : u' = u).
    { destruct (String.eqb (User_Password u) "") eqn:E.
      - apply String.eqb_eq in E. rewrite (hashPassword_empty _ _ E) in Hh.
        discriminate Hh.
      - apply String.eqb_neq in E. rewrite (hashPassword_nonempty _ _ E) in Hh.
        destruct (bcrypt.GenerateFromPassword _ _ w) as [[hash [e0|]] w0];
          [congruence | discriminate Hh]. }
    split; [|intros _; exact Same]. rewrite Same. now destruct u.
  - destruct (entropy w1 (reads w1)) as [fill|e]; [|discriminate].
    intros H.
    assert (Hu : u' = set_User_VerificationCode
                        (base64.EncodeToString base64.URLEncoding (drawn fill)) u1)
      by congruence.
    assert (He : err = None) by congruence.
    pose proof (hashPassword_frame _ _ _ _ _ Hh) as F.
    split; [|intros Hn; now contradiction Hn].
    rewrite Hu. clear Hu H Hh.
    generalize (base64.EncodeToString base64.URLEncoding (drawn fill)).
    intros code. destruct u1, u.
    cbn [User_Base User_Email User_Password User_PasswordHash User_Name
         User_Roles User_Organizations User_Seats User_Permissions
         User_VerificationCode User_Verified User_ActivityLogs
         User_NotificationPrefs User_Locale User_Timezone User_Language
         set_User_VerificationCode] in F |- *.
    injection F; intros; subst; reflexivity.
Qed.

(** The creation hook overwrites the verification code, whatever the
    caller put there. *)
Lemma hashPassword_set_code (v : string) (u : User) (w : World) :
  hashPassword (set_User_VerificationCode v u) w
  = match hashPassword u w with
    | Returned (u1, err) w1 => Returned (set_User_VerificationCode v u1, err) w1
    | Panicked e w1 => Panicked e w1
    | Exited m w1 => Exited m w1
    end.
Proof.
  destruct (String.eqb (User_Password u) "") eqn:E.
  - apply String.eqb_eq in E.
    rewrite (hashPassword_empty u w E).
    apply hashPassword_empty. now rewrite User_Password_set_code.
  - apply String.eqb_neq in E.
    rewrite (hashPassword_nonempty u w E).
    rewrite hashPassword_nonempty by now rewrite User_Password_set_code.
    rewrite User_Password_set_code.
    destruct (bcrypt.GenerateFromPassword _ _ w) as [[hash [e|]] w0];
      [reflexivity|].
    now destruct u.
Qed.

Lemma set_User_VerificationCode_twice (v v' : string) (u : User) :
  set_User_VerificationCode v (set_User_VerificationCode v' u)
  = set_User_VerificationCode v u.
Proof. now destruct u. Qed.

End UserHooksMore.

Section UserHooksMoreInstances.

Import models.

Lemma alice_creation :
  User_BeforeCreate (bc := demo.bcryptLib) alice demo.tx demo.steady
  = Returned (alice_created, None) (tick (tick demo.steady)).
Proof. vm_compute. reflexivity. Qed.

(** X8 on [alice], whose new plaintext is hashed and cleared. *)
Lemma X8_update_rehashes_witness :
  exists u',
    User_BeforeUpdate (bc := demo.bcryptLib) alice tx_changed demo.steady
    = Returned (u', None) (tick demo.steady)
    /\ User_Password u' = ""
    /\ demo.CompareHashAndPassword
         (bytes_of (User_PasswordHash u')) (bytes_of "hunter2") = None.
Proof.
  assert (Hp : User_Password alice <> "") by discriminate.
  destruct (X8_update_rehashes (bc := demo.bcryptLib) alice tx_changed
              demo.steady demo_bcrypt_lawful eq_refl) as (_ & Changed).
  destruct (Changed Hp) as (Ok & _ & Runs).
  destruct (Runs (demo.prefix ++ drawn_salt
                    ++ demo.digest 31 drawn_salt (bytes_of "hunter2"))%list
              (tick demo.steady) eq_refl) as (u' & U).
  exists u'. split; [exact U|].
  destruct (Ok _ _ U) as (P & C & _). split; [exact P | exact C].
Defined.

(** X9 on [alice]: the update hook after the creation hook. *)
Lemma X9_hashing_happens_once_witness :
  User_BeforeUpdate (bc := demo.bcryptLib) alice_created tx_changed demo.steady
  = Returned (alice_created, None) demo.steady.
Proof.
  exact (proj2 (X9_hashing_happens_once (bc := demo.bcryptLib) alice
                  alice_created demo.tx demo.steady (tick (tick demo.steady))
                  alice_creation tx_changed demo.steady)).
Defined.

(** X10 on [alice]. *)
Lemma X10_create_hook_frame_witness :
  User_Email alice_created = "alice@example.com"
  /\ User_Verified alice_created = false
  /\ User_Locale alice_created = "en".
Proof.
  destruct (X10_create_hook_frame (bc := demo.bcryptLib) alice alice_created
              None demo.tx demo.steady (tick (tick demo.steady)) alice_creation)
    as (F & _).
  rewrite F. repeat split.
Defined.

End UserHooksMoreInstances.

(** ** Keys, subscriptions and the default administrator, further *)

Section HooksMore.

Import models.

(** X11. The generated fields are not the caller's to choose.  Whatever
    key an API key carries into its creation hook, the outcome is the
    same; and whenever the user hook succeeds, it would have given the
    same user had the caller supplied any other verification code. *)
Theorem X11_generated_fields_overwritten {bc : bcrypt.Lib}
    (k : APIKey) (u : User) (v : string) (tx : gorm.DB) (w : World) :
  APIKey_BeforeCreate (set_APIKey_Key v k) tx w = APIKey_BeforeCreate k tx w
  /\ (forall u' w',
        User_BeforeCreate u tx w = Returned (u', None) w' ->
        User_BeforeCreate (set_User_VerificationCode v u) tx w
        = Returned (u', None) w').
Proof.
  split.
  - unfold APIKey_BeforeCreate, bind.
    destruct (generateRandomString 32 w); try reflexivity. now destruct k.
  - intros u' w'. rewrite !User_BeforeCreate_eq, hashPassword_set_code.
    destruct (hashPassword u w) as [[u1 [e|]] w1| |]; try discriminate.
    destruct (entropy w1 (reads w1)) as [fill|e]; [|discriminate].
    rewrite set_User_VerificationCode_twice. exact (fun H => H).
Qed.

(** The result of the subscription hook, field by field. *)
Lemma Subscription_BeforeCreate_eq (s : Subscription) (tx : gorm.DB) (w : World) :
  Subscription_BeforeCreate s tx w
  = Returned
      (mkSubscription (Subscription_Base s) (Subscription_OrganizationID s)
         (Subscription_SubscriptionPlan s)
         (if String.eqb (Subscription_Status s) "" then "trialing"
          else Subscription_Status s)
         (if IsZero (Subscription_StartDate s) then wallclock w
          else Subscription_StartDate s)
         (Subscription_EndDate s) (Subscription_Transactions s)
         (Subscription_PaymentMethod s) (Subscription_LastPaymentDate s)
         (Subscription_NextBillingDate s), None) w.
Proof.
  destruct s as [b o p st sd ed tr pm lp nb].
  unfold Subscription_BeforeCreate, bind, time_Now, ret.
  cbn [Subscription_Status Subscription_StartDate Subscription_Base
       Subscription_OrganizationID Subscription_SubscriptionPlan
       Subscription_EndDate Subscription_Transactions
       Subscription_PaymentMethod Subscription_LastPaymentDate
       Subscription_NextBillingDate].
  destruct (String.eqb st ""); cbn [set_Subscription_Status Subscription_StartDate];
    destruct (IsZero sd); reflexivity.
Qed.

(** X13. The subscription hook settles: it always returns without an
    error and without moving the world; afterwards the status is never
    empty, the start date is zero only if the clock itself reads zero,
    and running the hook again on its result changes nothing. *)
Theorem X13_subscription_hook_settles (s : Subscription) (tx : gorm.DB)
    (w : World) :
  exists s',
    Subscription_BeforeCreate s tx w = Returned (s', None) w
    /\ Subscription_Status s' <> ""
    /\ (IsZero (wallclock w) = false ->
        IsZero (Subscription_StartDate s') = false)
    /\ Subscription_BeforeCreate s' tx w = Returned (s', None) w.
Proof.
  eexists. split; [apply Subscription_BeforeCreate_eq|].
  rewrite Subscription_BeforeCreate_eq.
  cbn [Subscription_Status Subscription_StartDate Subscription_Base
       Subscription_OrganizationID Subscription_SubscriptionPlan
       Subscription_EndDate Subscription_Transactions
       Subscription_PaymentMethod Subscription_LastPaymentDate
       Subscription_NextBillingDate].
  destruct (String.eqb (Subscription_Status s) "") eqn:Est;
    destruct (IsZero (Subscription_StartDate s)) eqn:Esd;
    rewrite ?Est, ?Esd; cbn [String.eqb Ascii.eqb].
  - split; [discriminate|]. split; [now intros H|].
    now destruct (IsZero (wallclock w)).
  - split; [discriminate|]. now split.
  - apply String.eqb_neq in Est. split; [exact Est|]. split; [now intros H|].
    now destruct (IsZero (wallclock w)).
  - apply String.eqb_neq in Est. split; [exact Est|]. now split.
Qed.

Lemma matching_app (t l : store.Table) (email : string) :
  store.matching (t ++ l)%list email
  = store.matching t email + store.matching l email.
Proof.
  unfold store.matching. rewrite List.filter_app, List.length_app. lia.
Qed.

Lemma matching_nonneg (t : store.Table) (email : string) :
  0 <= store.matching t email.
Proof. unfold store.matching. lia. Qed.

(** X12. The default administrator is created at most once.  When gorm
    can build the statement and a row with the email ["admin"] is there
    and not soft-deleted, the table is returned as it is and nothing is
    read.  Whenever [createDefaultAdmin] returns, the old rows are all
    still there, in order, followed by at most one new row with that
    email; and calling it again on the result adds nothing.  When gorm
    cannot build the statement, the count stays zero, so that even with
    an administrator in the table the function goes on to [db.Create],
    which fails, and the process exits with nothing stored. *)
Theorem X12_default_admin_once {bc : bcrypt.Lib} {ss : store.Session}
    (t : store.Table) (db : gorm.DB) (w : World) :
  (store.Parse_User = None ->
   store.matching t "admin" <> 0 ->
   main.createDefaultAdmin t db w = Returned t w)
  /\ (forall t' w',
        main.createDefaultAdmin t db w = Returned t' w' ->
        ((t' = t /\ w' = w)
         \/ (exists row, t' = (t ++ [row])%list /\ User_Email row = "admin"
                         /\ store.matching t "admin" = 0))
        /\ forall db2 w2, main.createDefaultAdmin t' db2 w2 = Returned t' w2)
  /\ (forall e,
        store.Parse_User = Some e ->
        store.CountByEmail t "admin" = (0, Some e)
        /\ main.createDefaultAdmin t db w
           = Exited ("Failed to create admin user: " ++ e) w).
Proof.
  assert (Skip : forall t0 db0 w0, store.Parse_User = None ->
                   store.matching t0 "admin" <> 0 ->
                   main.createDefaultAdmin t0 db0 w0 = Returned t0 w0).
  { intros t0 db0 w0 P H. rewrite (createDefaultAdmin_parsed _ _ _ P).
    apply Z.eqb_neq in H. now rewrite H. }
  split; [apply Skip|]. split.
  - intros t' w' H.
    destruct (createDefaultAdmin_returned _ _ _ _ _ H)
      as (P & [(C & -> & ->)|(C & fill & _ & _ & ->)]).
    + split; [now left|]. intros db2 w2. now apply Skip.
    + set (row := store.stamp t (wallclock (tick w))
                    (set_User_VerificationCode
                       (base64.EncodeToString base64.URLEncoding (drawn fill))
                       main.admin)).
      split.
      * right. exists row. now repeat split.
      * intros db2 w2. apply Skip; [exact P|]. rewrite matching_app.
        assert (One : store.matching [row] "admin" = 1) by reflexivity.
        pose proof (matching_nonneg t "admin"). lia.
  - intros e P. split.
    + unfold store.CountByEmail. now rewrite P.
    + now apply createDefaultAdmin_unparsed.
Qed.

End HooksMore.

Section HooksMoreInstances.

Import models.

(** X12 on an empty table, where the second call adds nothing, and on a
    table that holds an administrator in a session where gorm cannot
    build the statement. *)
Lemma X12_default_admin_once_witness :
  exists row,
    main.createDefaultAdmin (bc := demo.bcryptLib) (ss := demo.parsed)
      [] demo.tx demo.steady
    = Returned [row] (tick demo.steady)
    /\ main.createDefaultAdmin (bc := demo.bcryptLib) (ss := demo.parsed)
         [row] demo.tx (tick demo.steady)
       = Returned [row] (tick demo.steady)
    /\ exists msg,
         main.createDefaultAdmin (bc := demo.bcryptLib) (ss := demo.unparsed)
           [row] demo.tx demo.steady
         = Exited msg demo.steady.
Proof.
  set (row := store.stamp [] (wallclock (tick demo.steady))
                (set_User_VerificationCode
                   "AAECAwQFBgcICQoLDA0ODxAREhMUFRYXGBkaGxwdHh8=" main.admin)).
  assert (E : main.createDefaultAdmin (bc := demo.bcryptLib) (ss := demo.parsed)
                [] demo.tx demo.steady
              = Returned [row] (tick demo.steady))
    by (vm_compute; reflexivity).
  exists row. split; [exact E|]. split.
  - destruct (X12_default_admin_once (bc := demo.bcryptLib) (ss := demo.parsed)
                [] demo.tx demo.steady) as (_ & Again & _).
    exact (proj2 (Again _ _ E) demo.tx (tick demo.steady)).
  - eexists.
    destruct (X12_default_admin_once (bc := demo.bcryptLib) (ss := demo.unparsed)
                [row] demo.tx demo.steady) as (_ & _ & Fails).
    exact (proj2 (Fails _ eq_refl)).
Defined.

End HooksMoreInstances.

(** ** base64, further: the encoding loses nothing *)

Section Base64More.

Import base64.

Lemma byteZ_bound (b : byte) : 0 <= byteZ b < 256.
Proof.
  unfold byteZ. pose proof (Byte.to_N_bounded b) as H. lia.
Qed.

Lemma byteZ_inj (a b : byte) : byteZ a = byteZ b -> a = b.
Proof.
  unfold byteZ. intros H. apply N2Z.inj in H.
  pose proof (Byte.of_to_N a) as Ha. rewrite H, Byte.of_to_N in Ha.
  congruence.
Qed.

(** Or-ing below a shift is adding. *)
Lemma lor_shiftl_low (a b n : Z) :
  0 <= n -> 0 <= b < 2 ^ n -> Z.lor (Z.shiftl a n) b = a * 2 ^ n + b.
Proof.
  intros Hn Hb.
  rewrite <- (Z.shiftl_mul_pow2 a n Hn), <- Z.add_lor_land.
  replace (Z.land (Z.shiftl a n) b) with 0; [lia|].
  symmetry. apply Z.bits_inj'. intros i Hi.
  rewrite Z.land_spec, Z.bits_0.
  destruct (Z.lt_ge_cases i n) as [Lt|Ge].
  - now rewrite (Z.shiftl_spec_low a n i Lt).
  - replace (Z.testbit b i) with false; [apply andb_false_r|].
    symmetry. destruct (Z.eq_dec b 0) as [->|Nz]; [apply Z.bits_0|].
    apply Z.bits_above_log2; [lia|].
    assert (Z.log2 b < n) by (apply Z.log2_lt_pow2; lia). lia.
Qed.

(** The three shapes of the value a group is encoded from. *)
Lemma val3_eq (b0 b1 b2 : byte) :
  Z.lor (Z.lor (Z.shiftl (byteZ b0) 16) (Z.shiftl (byteZ b1) 8)) (byteZ b2)
  = byteZ b0 * 65536 + byteZ b1 * 256 + byteZ b2.
Proof.
  pose proof (byteZ_bound b0). pose proof (byteZ_bound b1).
  pose proof (byteZ_bound b2).
  rewrite (lor_shiftl_low (byteZ b0) (Z.shiftl (byteZ b1) 8) 16)
    by (rewrite ?Z.shiftl_mul_pow2; lia).
  rewrite Z.shiftl_mul_pow2 by lia.
  replace (byteZ b0 * 2 ^ 16 + byteZ b1 * 2 ^ 8)
    with (Z.shiftl (byteZ b0 * 256 + byteZ b1) 8)
    by (rewrite Z.shiftl_mul_pow2; lia).
  rewrite lor_shiftl_low by lia. lia.
Qed.

Lemma val2_eq (b0 b1 : byte) :
  Z.lor (Z.shiftl (byteZ b0) 16) (Z.shiftl (byteZ b1) 8)
  = byteZ b0 * 65536 + byteZ b1 * 256.
Proof.
  pose proof (byteZ_bound b0). pose proof (byteZ_bound b1).
  rewrite lor_shiftl_low by (rewrite ?Z.shiftl_mul_pow2; lia).
  rewrite Z.shiftl_mul_pow2 by lia. lia.
Qed.

Lemma val1_eq (b0 : byte) : Z.shiftl (byteZ b0) 16 = byteZ b0 * 65536.
Proof. rewrite Z.shiftl_mul_pow2 by lia. lia. Qed.

(** A character of the encoding determines the six bits it stands for. *)
Lemma index_of_sextet (enc : Encoding) (v : Z) :
  encode enc = encodeURL ->
  Z.of_nat (index_of (sextet enc v) encodeURL) = Z.land v 63.
Proof.
  intros He. unfold sextet. rewrite He.
  assert (Hb : 0 <= Z.land v 63 < 64).
  { change 63 with (Z.ones 6). rewrite Z.land_ones by lia.
    apply Z.mod_pos_bound. reflexivity. }
  rewrite <- (Z2Nat.id (Z.land v 63)) at 2 by lia.
  assert (Hn : (Z.to_nat (Z.land v 63) < 64)%nat) by lia.
  generalize dependent (Z.to_nat (Z.land v 63)). intros n Hn.
  do 64 (destruct n as [|n]; [vm_compute; reflexivity|]).
  lia.
Qed.

Lemma sextet_shiftr_inj (enc : Encoding) (x y k : Z) :
  encode enc = encodeURL -> 0 <= k ->
  sextet enc (Z.shiftr x k) = sextet enc (Z.shiftr y k) ->
  (x / 2 ^ k) mod 64 = (y / 2 ^ k) mod 64.
Proof.
  intros He Hk H.
  pose proof (index_of_sextet enc (Z.shiftr x k) He) as Hx.
  pose proof (index_of_sextet enc (Z.shiftr y k) He) as Hy.
  rewrite H, Hy in Hx. change 63 with (Z.ones 6) in Hx.
  rewrite !Z.land_ones, !Z.shiftr_div_pow2 in Hx by lia.
  change (2 ^ 6) with 64 in Hx. lia.
Qed.

Lemma sextet_inj (enc : Encoding) (x y : Z) :
  encode enc = encodeURL ->
  sextet enc x = sextet enc y -> x mod 64 = y mod 64.
Proof.
  intros He H.
  pose proof (sextet_shiftr_inj enc x y 0 He (Z.le_refl 0)) as G.
  rewrite !Z.shiftr_0_r, !Z.pow_0_r, !Z.div_1_r in G. now apply G.
Qed.

(** The padding is not a character of the alphabet. *)
Lemma sextet_not_padding (enc : Encoding) (v : Z) :
  encode enc = encodeURL -> sextet enc v <> StdPadding.
Proof.
  intros He H.
  pose proof (sextet_isURLChar v) as U.
  replace (sextet URLEncoding v) with (sextet enc v) in U
    by (unfold sextet; now rewrite He).
  rewrite H in U. discriminate U.
Qed.

(** A number below 2^24 is determined by its four base-64 digits. *)
Lemma digits24_inj (x y : Z) :
  0 <= x < 16777216 -> 0 <= y < 16777216 ->
  (x / 2 ^ 18) mod 64 = (y / 2 ^ 18) mod 64 ->
  (x / 2 ^ 12) mod 64 = (y / 2 ^ 12) mod 64 ->
  (x / 2 ^ 6) mod 64 = (y / 2 ^ 6) mod 64 ->
  x mod 64 = y mod 64 ->
  x = y.
Proof.
  intros Hx Hy H18 H12 H6 H0.
  change (2 ^ 18) with 262144 in H18. change (2 ^ 12) with 4096 in H12.
  change (2 ^ 6) with 64 in H6.
  replace (x / 262144) with (x / 64 / 64 / 64) in H18
    by (rewrite !Z.div_div by lia; reflexivity).
  replace (y / 262144) with (y / 64 / 64 / 64) in H18
    by (rewrite !Z.div_div by lia; reflexivity).
  replace (x / 4096) with (x / 64 / 64) in H12
    by (rewrite !Z.div_div by lia; reflexivity).
  replace (y / 4096) with (y / 64 / 64) in H12
    by (rewrite !Z.div_div by lia; reflexivity).
  pose proof (Z.div_mod x 64 ltac:(lia)) as Dx0.
  pose proof (Z.div_mod y 64 ltac:(lia)) as Dy0.
  pose proof (Z.div_mod (x / 64) 64 ltac:(lia)) as Dx1.
  pose proof (Z.div_mod (y / 64) 64 ltac:(lia)) as Dy1.
  pose proof (Z.div_mod (x / 64 / 64) 64 ltac:(lia)) as Dx2.
  pose proof (Z.div_mod (y / 64 / 64) 64 ltac:(lia)) as Dy2.
  assert (Sx : 0 <= x / 64 / 64 / 64 < 64).
  { split; [repeat apply Z.div_pos; lia|].
    rewrite !Z.div_div by lia. apply Z.div_lt_upper_bound; lia. }
  assert (Sy : 0 <= y / 64 / 64 / 64 < 64).
  { split; [repeat apply Z.div_pos; lia|].
    rewrite !Z.div_div by lia. apply Z.div_lt_upper_bound; lia. }
  rewrite (Z.mod_small _ _ Sx), (Z.mod_small _ _ Sy) in H18.
  rewrite H18 in Dx2. rewrite H12 in Dx2. rewrite <- Dy2 in Dx2.
  rewrite Dx2, H6 in Dx1. rewrite <- Dy1 in Dx1.
  rewrite Dx1, H0 in Dx0. rewrite <- Dy0 in Dx0. exact Dx0.
Qed.

Lemma mod64_of_multiple (k : Z) : (k * 64) mod 64 = 0.
Proof. apply Z.mod_mul. lia. Qed.

(** Inputs of one length with the same padded encoding are the same
    bytes. *)
Lemma EncodeToString_inj (a b : list byte) :
  length a = length b ->
  EncodeToString URLEncoding a = EncodeToString URLEncoding b ->
  a = b.
Proof.
  revert b.
  induction a as [| a0 | a0 a1 | a0 a1 a2 l IH] using list_ind3;
    intros b Hl H.
  - destruct b; [reflexivity | discriminate Hl].
  - destruct b as [|b0 [|? ?]]; try discriminate Hl.
    cbn [EncodeToString] in H. rewrite !val1_eq in H.
    set (x := byteZ a0 * 65536) in *. set (y := byteZ b0 * 65536) in *.
    assert (G18 := sextet_shiftr_inj URLEncoding x y 18 eq_refl ltac:(lia)
                     ltac:(congruence)).
    assert (G12 := sextet_shiftr_inj URLEncoding x y 12 eq_refl ltac:(lia)
                     ltac:(congruence)).
    pose proof (byteZ_bound a0). pose proof (byteZ_bound b0).
    assert (X6 : (x / 2 ^ 6) mod 64 = 0).
    { unfold x. replace (byteZ a0 * 65536) with (byteZ a0 * 16 * 64 * 64) by lia.
      change (2 ^ 6) with 64. rewrite Z.div_mul by lia. apply mod64_of_multiple. }
    assert (Y6 : (y / 2 ^ 6) mod 64 = 0).
    { unfold y. replace (byteZ b0 * 65536) with (byteZ b0 * 16 * 64 * 64) by lia.
      change (2 ^ 6) with 64. rewrite Z.div_mul by lia. apply mod64_of_multiple. }
    assert (X0 : x mod 64 = 0).
    { unfold x. replace (byteZ a0 * 65536) with (byteZ a0 * 1024 * 64) by lia.
      apply mod64_of_multiple. }
    assert (Y0 : y mod 64 = 0).
    { unfold y. replace (byteZ b0 * 65536) with (byteZ b0 * 1024 * 64) by lia.
      apply mod64_of_multiple. }
    assert (E : x = y)
      by (apply digits24_inj; try assumption; try congruence; unfold x, y; lia).
    f_equal. apply byteZ_inj. unfold x, y in E. lia.
  - destruct b as [|b0 [|b1 [|? ?]]]; try discriminate Hl.
    cbn [EncodeToString] in H. rewrite !val2_eq in H.
    set (x := byteZ a0 * 65536 + byteZ a1 * 256) in *.
    set (y := byteZ b0 * 65536 + byteZ b1 * 256) in *.
    assert (G18 := sextet_shiftr_inj URLEncoding x y 18 eq_refl ltac:(lia)
                     ltac:(congruence)).
    assert (G12 := sextet_shiftr_inj URLEncoding x y 12 eq_refl ltac:(lia)
                     ltac:(congruence)).
    assert (G6 := sextet_shiftr_inj URLEncoding x y 6 eq_refl ltac:(lia)
                    ltac:(congruence)).
    pose proof (byteZ_bound a0). pose proof (byteZ_bound b0).
    pose proof (byteZ_bound a1). pose proof (byteZ_bound b1).
    assert (X0 : x mod 64 = 0).
    { unfold x.
      replace (byteZ a0 * 65536 + byteZ a1 * 256)
        with ((byteZ a0 * 1024 + byteZ a1 * 4) * 64) by lia.
      apply mod64_of_multiple. }
    assert (Y0 : y mod 64 = 0).
    { unfold y.
      replace (byteZ b0 * 65536 + byteZ b1 * 256)
        with ((byteZ b0 * 1024 + byteZ b1 * 4) * 64) by lia.
      apply mod64_of_multiple. }
    assert (E : x = y)
      by (apply digits24_inj; try assumption; try congruence; unfold x, y; lia).
    unfold x, y in E.
    assert (byteZ a0 = byteZ b0 /\ byteZ a1 = byteZ b1) as [E0 E1] by lia.
    apply byteZ_inj in E0, E1. now subst.
  - destruct b as [|b0 [|b1 [|b2 m]]]; try discriminate Hl.
    cbn [EncodeToString] in H. rewrite !val3_eq in H.
    set (x := byteZ a0 * 65536 + byteZ a1 * 256 + byteZ a2) in *.
    set (y := byteZ b0 * 65536 + byteZ b1 * 256 + byteZ b2) in *.
    assert (G18 := sextet_shiftr_inj URLEncoding x y 18 eq_refl ltac:(lia)
                     ltac:(congruence)).
    assert (G12 := sextet_shiftr_inj URLEncoding x y 12 eq_refl ltac:(lia)
                     ltac:(congruence)).
    assert (G6 := sextet_shiftr_inj URLEncoding x y 6 eq_refl ltac:(lia)
                    ltac:(congruence)).
    assert (G0 := sextet_inj URLEncoding x y eq_refl ltac:(congruence)).
    assert (Hrest : EncodeToString URLEncoding l = EncodeToString URLEncoding m)
      by congruence.
    pose proof (byteZ_bound a0). pose proof (byteZ_bound b0).
    pose proof (byteZ_bound a1). pose proof (byteZ_bound b1).
    pose proof (byteZ_bound a2). pose proof (byteZ_bound b2).
    assert (E : x = y)
      by (apply digits24_inj; try assumption; try congruence; unfold x, y; lia).
    unfold x, y in E.
    assert (byteZ a0 = byteZ b0 /\ byteZ a1 = byteZ b1 /\ byteZ a2 = byteZ b2)
      as (F0 & F1 & F2) by lia.
    apply byteZ_inj in F0, F1, F2. subst.
    f_equal. f_equal. f_equal. apply IH; [|exact Hrest].
    cbn [length] in Hl. lia.
Qed.

End Base64More.

(** ** Generated strings *)

Section GeneratedStrings.

Import models.

Lemma EncodeToString_charset (src : list byte) :
  forallb isCodeChar
    (list_ascii_of_string (base64.EncodeToString base64.URLEncoding src)) = true.
Proof.
  assert (S : forall v, isCodeChar (base64.sextet base64.URLEncoding v) = true).
  { intros v. unfold isCodeChar. now rewrite sextet_isURLChar. }
  induction src as [| a | a b | a b c l IH] using list_ind3;
    cbn [base64.EncodeToString list_ascii_of_string forallb];
    rewrite ?S, ?IH; reflexivity.
Qed.

Lemma isCodeChar_neither (c : ascii) :
  isCodeChar c = true ->
  negb (Ascii.eqb c " ") = true /\ negb (Ascii.eqb c ".") = true.
Proof.
  intros H. split; apply negb_true_iff, Ascii.eqb_neq; intros ->;
    vm_compute in H; discriminate H.
Qed.

Lemma code_string_plain (s : string) :
  forallb isCodeChar (list_ascii_of_string s) = true ->
  no_char " " s /\ no_char "." s.
Proof.
  unfold no_char. induction s as [|c s IH]; [now split|].
  cbn [list_ascii_of_string forallb]. intros H.
  apply andb_true_iff in H as [Hc Hs].
  destruct (IH Hs) as [I1 I2]. destruct (isCodeChar_neither c Hc) as [C1 C2].
  now rewrite C1, C2, I1, I2.
Qed.

(** What the generator returns, for any requested size. *)
Lemma generateRandomString_returned (n : Z) (w : World) (s : string) (w' : World) :
  generateRandomString n w = Returned s w' ->
  0 <= n
  /\ exists fill,
       entropy w (reads w) = ReadOk fill
       /\ s = base64.EncodeToString base64.URLEncoding
                (fill_from fill 0 (repeat x00 (Z.to_nat n)))
       /\ w' = tick w.
Proof.
  destruct (Z.ltb n 0) eqn:E.
  - unfold generateRandomString, bind, make_bytes. rewrite E. discriminate.
  - apply Z.ltb_ge in E. rewrite generateRandomString_eq by exact E.
    destruct (entropy w (reads w)) as [fill|e]; [|discriminate].
    intros H. split; [exact E|]. exists fill.
    split; [reflexivity|]. split; congruence.
Qed.

(** X14. Two API keys created one after the other are the encodings of
    two successive reads of the random source, and they are the same
    string exactly when the two reads delivered the same 32 bytes: the
    encoding itself never makes two keys collide. *)
Theorem X14_keys_collide_only_with_source
    (k1 k2 k1' k2' : APIKey) (e1 e2 : option error) (tx1 tx2 : gorm.DB)
    (w w1 w2 : World) :
  APIKey_BeforeCreate k1 tx1 w = Returned (k1', e1) w1 ->
  APIKey_BeforeCreate k2 tx2 w1 = Returned (k2', e2) w2 ->
  exists fill1 fill2,
    entropy w (reads w) = ReadOk fill1
    /\ entropy w (S (reads w)) = ReadOk fill2
    /\ (APIKey_Key k1' = APIKey_Key k2' <-> drawn fill1 = drawn fill2).
Proof.
  assert (K : forall k tx w0 k' e w0',
            APIKey_BeforeCreate k tx w0 = Returned (k', e) w0' ->
            exists fill, entropy w0 (reads w0) = ReadOk fill
                         /\ APIKey_Key k'
                            = base64.EncodeToString base64.URLEncoding (drawn fill)
                         /\ w0' = tick w0).
  { intros k tx w0 k' e w0'. unfold APIKey_BeforeCreate, bind.
    rewrite generateRandomString_32.
    destruct (entropy w0 (reads w0)) as [fill|err]; [|discriminate].
    unfold ret. intros H. exists fill. split; [reflexivity|].
    assert (Hk : k' = set_APIKey_Key
                        (base64.EncodeToString base64.URLEncoding (drawn fill)) k)
      by congruence.
    split; [rewrite Hk; now destruct k | congruence]. }
  intros H1 H2.
  destruct (K _ _ _ _ _ _ H1) as (fill1 & E1 & K1 & ->).
  destruct (K _ _ _ _ _ _ H2) as (fill2 & E2 & K2 & _).
  exists fill1, fill2. split; [exact E1|]. split; [exact E2|].
  rewrite K1, K2. split.
  - apply EncodeToString_inj. now rewrite !drawn_length.
  - now intros ->.
Qed.

(** X15. The argument of [generateRandomString] counts bytes, not
    characters.  A negative count panics before the random source is
    read.  Otherwise a returned string has four characters for every
    started group of three bytes, so it is longer than the count whenever
    the count is positive, and it consists of characters of the URL
    alphabet and of [=] only. *)
Theorem X15_random_string_shape (n : Z) (w : World) :
  (n < 0 -> exists v, generateRandomString n w = Panicked v w)
  /\ (forall s w',
        generateRandomString n w = Returned s w' ->
        0 <= n
        /\ String.length s = (4 * ((Z.to_nat n + 2) / 3))%nat
        /\ forallb isCodeChar (list_ascii_of_string s) = true
        /\ (0 < n -> (Z.to_nat n < String.length s)%nat)).
Proof.
  split.
  - intros Hn. unfold generateRandomString, bind, make_bytes.
    apply Z.ltb_lt in Hn. rewrite Hn. eexists. reflexivity.
  - intros s w' H.
    destruct (generateRandomString_returned _ _ _ _ H) as (Hn & fill & _ & -> & _).
    split; [exact Hn|].
    assert (L : String.length
                  (base64.EncodeToString base64.URLEncoding
                     (fill_from fill 0 (repeat x00 (Z.to_nat n))))
                = (4 * ((Z.to_nat n + 2) / 3))%nat).
    { now rewrite EncodeToString_length, fill_from_length, repeat_length. }
    split; [exact L|]. split; [apply EncodeToString_charset|].
    intros Hp. rewrite L.
    pose proof (Nat.div_mod_eq (Z.to_nat n + 2) 3) as D.
    pose proof (Nat.mod_upper_bound (Z.to_nat n + 2) 3 ltac:(lia)) as U.
    lia.
Qed.

(** X16. A generated string is no bearer token.  Sent as
    [Authorization: Bearer <string>], it is extracted unharmed, for it
    contains no space; but it contains no dot either, so verification
    fails and both gates reject the request, whatever role they ask for. *)
Theorem X16_generated_string_is_no_token {L : jwt.Lib}
    (n : Z) (w w' : World) (s : string) (c : gin.Context) :
  generateRandomString n w = Returned s w' ->
  gin.GetHeader c "Authorization" = "Bearer " ++ s ->
  auth.ExtractToken c = s
  /\ auth.VerifyToken c
     = ("", Some "token contains an invalid number of segments")
  /\ forall r c_Next,
       auth.AuthMiddleware r c_Next c = rejected c
       /\ auth.IsUserOrAdmin c_Next c = rejected c.
Proof.
  intros H Hh.
  destruct (generateRandomString_returned _ _ _ _ H) as (_ & fill & _ & Hs & _).
  destruct (code_string_plain s) as [Sp Dot];
    [rewrite Hs; apply EncodeToString_charset|].
  assert (X : auth.ExtractToken c = s) by now apply ExtractToken_bearer.
  assert (V : auth.VerifyToken c
              = ("", Some "token contains an invalid number of segments")).
  { unfold auth.VerifyToken, jwt.Parse. rewrite X.
    now rewrite (strings_Split_none s "." Dot). }
  split; [exact X|]. split; [exact V|]. exact (gates_reject_error _ _ _ V).
Qed.

End GeneratedStrings.

Section GeneratedStringsInstances.

Import models.

(** X14 in a world whose reads differ: the two keys differ. *)
Lemma X14_keys_collide_only_with_source_witness :
  exists k1' k2',
    APIKey_BeforeCreate ci_key demo.tx varying
    = Returned (k1', None) (tick varying)
    /\ APIKey_BeforeCreate ci_key demo.tx (tick varying)
       = Returned (k2', None) (tick (tick varying))
    /\ APIKey_Key k1' <> APIKey_Key k2'.
Proof.
  set (k1' := set_APIKey_Key "AAECAwQFBgcICQoLDA0ODxAREhMUFRYXGBkaGxwdHh8=" ci_key).
  set (k2' := set_APIKey_Key "AQIDBAUGBwgJCgsMDQ4PEBESExQVFhcYGRobHB0eHyA=" ci_key).
  assert (E1 : APIKey_BeforeCreate ci_key demo.tx varying
               = Returned (k1', None) (tick varying))
    by (vm_compute; reflexivity).
  assert (E2 : APIKey_BeforeCreate ci_key demo.tx (tick varying)
               = Returned (k2', None) (tick (tick varying)))
    by (vm_compute; reflexivity).
  exists k1', k2'. split; [exact E1|]. split; [exact E2|].
  destruct (X14_keys_collide_only_with_source _ _ _ _ _ _ _ _ _ _ _ E1 E2)
    as (fill1 & fill2 & F1 & F2 & Iff).
  intros Eq. apply Iff in Eq.
  assert (G1 : ReadOk fill1 = ReadOk (fun j => demo.counting (0 + j)))
    by (rewrite <- F1; reflexivity).
  assert (G2 : ReadOk fill2 = ReadOk (fun j => demo.counting (1 + j)))
    by (rewrite <- F2; reflexivity).
  injection G1 as ->. injection G2 as ->.
  vm_compute in Eq. discriminate Eq.
Defined.

(** X16 on the key generated in the world [demo.steady]. *)
Lemma X16_generated_string_is_no_token_witness :
  auth.ExtractToken
    (request "Bearer AAECAwQFBgcICQoLDA0ODxAREhMUFRYXGBkaGxwdHh8=")
  = "AAECAwQFBgcICQoLDA0ODxAREhMUFRYXGBkaGxwdHh8="
  /\ auth.VerifyToken (L := demo.jwtLib)
       (request "Bearer AAECAwQFBgcICQoLDA0ODxAREhMUFRYXGBkaGxwdHh8=")
     = ("", Some "token contains an invalid number of segments").
Proof.
  assert (G : generateRandomString 32 demo.steady
              = Returned "AAECAwQFBgcICQoLDA0ODxAREhMUFRYXGBkaGxwdHh8="
                  (tick demo.steady))
    by (vm_compute; reflexivity).
  destruct (X16_generated_string_is_no_token (L := demo.jwtLib) 32 demo.steady
              (tick demo.steady) "AAECAwQFBgcICQoLDA0ODxAREhMUFRYXGBkaGxwdHh8="
              (request "Bearer AAECAwQFBgcICQoLDA0ODxAREhMUFRYXGBkaGxwdHh8=")
              G eq_refl) as (X & V & _).
  split; [exact X | exact V].
Defined.

End GeneratedStringsInstances.

(** ** Issued tokens at the gates *)

Section IssuedTokens.

Context {L : jwt.Lib} {S : issue.Signer}.

Lemma served_of_role (c : gin.Context) (t role : string) :
  gin.GetHeader c "Authorization" = "Bearer " ++ t ->
  no_space t ->
  correctly_signed t role ->
  (forall r, role = r ->
     served (auth.AuthMiddleware r) c = [(200, [("status", "ok")])])
  /\ (forall r, role <> r ->
     served (auth.AuthMiddleware r) c = [(401, [("error", "Unauthorized")])])
  /\ (role = "user" \/ role = "admin" ->
     served auth.IsUserOrAdmin c = [(200, [("status", "ok")])]).
Proof.
  intros Hh Ht Hs.
  pose proof (VerifyToken_correctly_signed c t role
                (ExtractToken_bearer c t Hh Ht) Hs) as V.
  split; [|split].
  - intros r <-.
    destruct (served_AuthMiddleware role c) as [[_ E]|[Hn _]]; [exact E|].
    contradiction Hn. now exists role.
  - intros r Hr.
    destruct (served_AuthMiddleware r c) as [[(ro & Hv & Heq) _]|[_ E]];
      [|exact E].
    rewrite V in Hv. congruence.
  - intros Hr.
    destruct (served_IsUserOrAdmin c) as [[_ E]|[Hn _]]; [exact E|].
    contradiction Hn. now exists role.
Qed.

(** X17. The tokens the package issues, at its own gates, provided that
    signing and parsing fit together.  The role is fixed by the issuing
    function and not by the user record: a token from [GenerateToken] is
    served by the user-or-admin gate and by a gate that requires
    ["user"], and refused where ["admin"] is required, whatever roles the
    user holds; a token from [GenerateAdminToken] is served by the
    admin-only gate and by the user-or-admin gate, and refused where
    ["user"] is required. *)
Theorem X17_issued_tokens_at_the_gates (user : models.User) (t : string)
    (c : gin.Context) :
  gin.GetHeader c "Authorization" = "Bearer " ++ t ->
  (signing_fits S L (models.Base_ID (models.User_Base user)) "user" ->
   issue.GenerateToken user = (t, None) ->
   served auth.IsUserOrAdmin c = [(200, [("status", "ok")])]
   /\ served (auth.AuthMiddleware "user") c = [(200, [("status", "ok")])]
   /\ served (auth.AuthMiddleware "admin") c = [(401, [("error", "Unauthorized")])])
  /\ (signing_fits S L (models.Base_ID (models.User_Base user)) "admin" ->
   issue.GenerateAdminToken user = (t, None) ->
   served auth.IsUserOrAdmin c = [(200, [("status", "ok")])]
   /\ served (auth.AuthMiddleware "admin") c = [(200, [("status", "ok")])]
   /\ served (auth.AuthMiddleware "user") c = [(401, [("error", "Unauthorized")])]).
Proof.
  intros Hh. split; intros Fit G; destruct (Fit t G) as (Ht & Hs);
    destruct (served_of_role c t _ Hh Ht Hs) as (Yes & No & Either).
  - split; [apply Either; now left|].
    split; [now apply Yes | apply No; discriminate].
  - split; [apply Either; now right|].
    split; [now apply Yes | apply No; discriminate].
Qed.

End IssuedTokens.

Section IssuedTokensInstances.

Lemma user_token_signed : correctly_signed (L := demo.jwtLib) user_token "user".
Proof.
  split; [reflexivity|]. eexists _, _, "HS256".
  split; [reflexivity|]. repeat split; vm_compute; reflexivity.
Qed.

(** X17 on the default administrator, who holds the role ["admin"] and
    still gets a user token from [GenerateToken]. *)
Lemma X17_issued_tokens_at_the_gates_witness :
  issue.GenerateToken (S := demo_signer) main.admin = (user_token, None)
  /\ served (auth.AuthMiddleware (L := demo.jwtLib) "admin")
       (request ("Bearer " ++ user_token)) = [(401, [("error", "Unauthorized")])]
  /\ served (auth.IsUserOrAdmin (L := demo.jwtLib))
       (request ("Bearer " ++ user_token)) = [(200, [("status", "ok")])].
Proof.
  assert (G : issue.GenerateToken (S := demo_signer) main.admin
              = (user_token, None)) by (vm_compute; reflexivity).
  assert (Fit : signing_fits demo_signer demo.jwtLib
                  (models.Base_ID (models.User_Base main.admin)) "user").
  { intros t Ht.
    assert (E : t = user_token).
    { change (issue.GenerateToken (S := demo_signer) main.admin = (t, None)) in Ht.
      rewrite G in Ht. congruence. }
    subst t. split; [reflexivity | exact user_token_signed]. }
  destruct (X17_issued_tokens_at_the_gates (L := demo.jwtLib) (S := demo_signer)
              main.admin user_token (request ("Bearer " ++ user_token)) eq_refl)
    as (User & _).
  destruct (User Fit G) as (E & _ & A).
  split; [exact G|]. split; [exact A | exact E].
Defined.

End IssuedTokensInstances.

(** ** Further concrete instances *)

Section MoreInstances.

Import models.

(** X6 on the user token: served by the user-or-admin gate, as by the
    gate that requires ["user"]. *)
Lemma X6_either_gate_is_union_witness :
  served (auth.IsUserOrAdmin (L := demo.jwtLib))
    (request ("Bearer " ++ user_token)) = [(200, [("status", "ok")])].
Proof.
  apply (proj2 (X6_either_gate_is_union (L := demo.jwtLib)
                  (request ("Bearer " ++ user_token)))).
  left. vm_compute. reflexivity.
Defined.

(** X11 on a key that arrives with a string of the caller's. *)
Lemma X11_generated_fields_overwritten_witness :
  APIKey_BeforeCreate ci_key demo.tx demo.steady
  = APIKey_BeforeCreate (set_APIKey_Key "" ci_key) demo.tx demo.steady.
Proof.
  rewrite <- (proj1 (X11_generated_fields_overwritten (bc := demo.bcryptLib)
                       (set_APIKey_Key "" ci_key) nobody "chosen-by-caller"
                       demo.tx demo.steady)).
  reflexivity.
Defined.

(** X13 on a subscription that names the status ["paused"], which is none
    of the declared ones: it is kept. *)
Lemma X13_subscription_hook_settles_witness :
  exists s',
    Subscription_BeforeCreate
      (set_Subscription_Status "paused" blank_subscription) demo.tx demo.steady
    = Returned (s', None) demo.steady
    /\ Subscription_Status s' <> ""
    /\ Subscription_BeforeCreate s' demo.tx demo.steady
       = Returned (s', None) demo.steady.
Proof.
  destruct (X13_subscription_hook_settles
              (set_Subscription_Status "paused" blank_subscription)
              demo.tx demo.steady) as (s' & E & St & _ & Again).
  exists s'. split; [exact E|]. split; [exact St | exact Again].
Defined.

(** X15 for 32 bytes and for a negative count. *)
Lemma X15_random_string_shape_witness :
  (exists s, generateRandomString 32 demo.steady = Returned s (tick demo.steady)
             /\ String.length s = 44%nat)
  /\ exists v, generateRandomString (-1) demo.steady = Panicked v demo.steady.
Proof.
  split.
  - exists "AAECAwQFBgcICQoLDA0ODxAREhMUFRYXGBkaGxwdHh8=".
    assert (G : generateRandomString 32 demo.steady
                = Returned "AAECAwQFBgcICQoLDA0ODxAREhMUFRYXGBkaGxwdHh8="
                    (tick demo.steady)) by (vm_compute; reflexivity).
    split; [exact G|].
    destruct (proj2 (X15_random_string_shape 32 demo.steady) _ _ G)
      as (_ & Len & _).
    exact Len.
  - apply (proj1 (X15_random_string_shape (-1) demo.steady)). lia.
Defined.

End MoreInstances.
